(** * Shallow embedding of the IMX6ULL USB camera driver
      (src/sensor/drivers/camera_driver/camera_driver.c)

    The V4L2 format negotiation ([camera_try_fmt], [camera_s_fmt]), the
    videobuf2 callbacks ([camera_queue_setup], [camera_buf_queue],
    [camera_start_streaming], [camera_stop_streaming],
    [camera_return_all_buffers], [camera_buf_prepare]), the format tables
    and [camera_enum_fmt], [camera_g_fmt], the probe-time defaults, and the
    acquire/release sequence of [camera_probe] and [camera_disconnect] are
    embedded from the C source.  The parts of videobuf2 that call them (REQBUFS,
    QBUF, DQBUF, STREAMON, STREAMOFF, release) are modelled after the
    kernel's videobuf2 core, and the URB completion path, which the
    repository only declares ([camera_urb_complete],
    [camera_get_next_buffer], [camera_buffer_done] in camera_driver.h), is
    modelled from the specification. *)

From Stdlib Require Import ZArith Lia Strings.String List Bool Arith Strings.Byte.
Import ListNotations.
Open Scope Z_scope.

(** ** Machine integers *)

(** [unsigned int] arithmetic wraps modulo 2^32. *)
Definition u32 (z : Z) : Z := z mod 2 ^ 32.

(** [clamp(val, lo, hi)] from linux/minmax.h: [min(max(val, lo), hi)]. *)
Definition clamp (v lo hi : Z) : Z := Z.min (Z.max v lo) hi.

(** [ALIGN(x, a)] = [__ALIGN_KERNEL(x, a)] = [((x) + (a - 1)) & ~(a - 1)],
    evaluated in the type of [x] ([__u32] here). *)
Definition ALIGN (x a : Z) : Z := Z.land (u32 (x + (a - 1))) (u32 (Z.lnot (a - 1))).

(** [v4l2_fourcc(a, b, c, d)] from videodev2.h. *)
Definition v4l2_fourcc (a b c d : Z) : Z :=
  Z.lor (Z.lor a (Z.shiftl b 8)) (Z.lor (Z.shiftl c 16) (Z.shiftl d 24)).

Definition V4L2_PIX_FMT_MJPEG : Z := v4l2_fourcc 77 74 80 71.  (* 'M' 'J' 'P' 'G' *)
Definition V4L2_PIX_FMT_YUYV : Z := v4l2_fourcc 89 85 89 86.   (* 'Y' 'U' 'Y' 'V' *)
Definition V4L2_FIELD_NONE : Z := 1.
Definition V4L2_COLORSPACE_SRGB : Z := 8.

(** Error numbers, returned negated as in the kernel. *)
Definition EBUSY : Z := 16.
Definition EINVAL : Z := 22.

(** ** Formats *)

(** The fields of [struct v4l2_pix_format] that the driver reads or writes. *)
Record v4l2_pix_format := mk_pix {
  width : Z;
  height : Z;
  pixelformat : Z;
  field : Z;
  bytesperline : Z;
  sizeimage : Z;
  colorspace : Z
}.

(** [camera_try_fmt]: always returns 0 and rewrites the format in place. *)
Definition camera_try_fmt (pix : v4l2_pix_format) : Z * v4l2_pix_format :=
  (* Validate pixel format *)
  let pf :=
    if negb (pixelformat pix =? V4L2_PIX_FMT_MJPEG) &&
       negb (pixelformat pix =? V4L2_PIX_FMT_YUYV)
    then V4L2_PIX_FMT_MJPEG else pixelformat pix in
  (* Clamp dimensions *)
  let w := clamp (width pix) 160 1280 in
  let h := clamp (height pix) 120 720 in
  (* Align to 16-byte boundary for better performance *)
  let w := ALIGN w 16 in
  let h := ALIGN h 2 in
  (* Calculate bytes per line and image size *)
  let '(bpl, size) :=
    if pf =? V4L2_PIX_FMT_YUYV then
      let bpl := u32 (w * 2) in (bpl, u32 (bpl * h))
    else (0, u32 (w * h)) in
  (0, mk_pix w h pf V4L2_FIELD_NONE bpl size V4L2_COLORSPACE_SRGB).

(** The default format set by [camera_create_video_device] on a zeroed
    ([kzalloc]) device: [bytesperline] and [sizeimage] stay 0. *)
Definition default_format : v4l2_pix_format :=
  mk_pix 640 480 V4L2_PIX_FMT_MJPEG V4L2_FIELD_NONE 0 0 V4L2_COLORSPACE_SRGB.

(** ** The device *)

Inductive camera_state :=
| CAMERA_STATE_DISCONNECTED
| CAMERA_STATE_CONNECTED
| CAMERA_STATE_STREAMING
| CAMERA_STATE_ERROR.

(** The two completion states the driver passes to [vb2_buffer_done]. *)
Inductive vb2_buffer_state := VB2_BUF_STATE_DONE | VB2_BUF_STATE_ERROR.

Definition MAX_BUFFERS : nat := 4.
Definition MIN_BUFFERS : nat := 2.
(** [VB2_MAX_FRAME], the videobuf2 core's own bound on a REQBUFS count. *)
Definition VB2_MAX_FRAME : nat := 32.
Definition EAGAIN : Z := 11.

(** Statistics: [frames_received] and [frames_dropped] of camera_driver.c,
    with [bytes_received] and [errors] of camera_driver.h. *)
Record statistics := mk_stats {
  frames_received : nat;
  frames_dropped : nat;
  bytes_received : nat;
  errors : nat
}.

Definition zero_stats : statistics := mk_stats 0 0 0 0.

(** [struct camera_device] together with the state of its [vb2_queue]
    that the driver's callbacks observe.  Buffers are named by their
    index in the queue. *)
Record camera_device := mk_dev {
  state : camera_state;
  format : v4l2_pix_format;
  (* videobuf2 queue *)
  num_buffers : nat;                          (* allocated buffers *)
  streaming : bool;                           (* q->streaming *)
  owned : list nat;                           (* buffers queued, not with the user *)
  done_list : list nat;                       (* q->done_list *)
  completed : list (nat * vb2_buffer_state);  (* vb2_buffer_done calls, in order *)
  (* driver *)
  buf_list : list nat;                        (* dev->buf_list *)
  (* frame assembly *)
  filling : option (nat * nat);               (* buffer being filled, bytes_filled *)
  last_byte : option byte;                    (* MJPEG one-byte lookback *)
  sequence : nat;
  frames : list (nat * nat * nat);            (* Ready: index, bytes_filled, sequence *)
  stats : statistics
}.

Definition set_state s d := mk_dev s (format d) (num_buffers d) (streaming d) (owned d)
  (done_list d) (completed d) (buf_list d) (filling d) (last_byte d) (sequence d) (frames d) (stats d).
Definition set_format f d := mk_dev (state d) f (num_buffers d) (streaming d) (owned d)
  (done_list d) (completed d) (buf_list d) (filling d) (last_byte d) (sequence d) (frames d) (stats d).
Definition set_num_buffers n d := mk_dev (state d) (format d) n (streaming d) (owned d)
  (done_list d) (completed d) (buf_list d) (filling d) (last_byte d) (sequence d) (frames d) (stats d).
Definition set_streaming b d := mk_dev (state d) (format d) (num_buffers d) b (owned d)
  (done_list d) (completed d) (buf_list d) (filling d) (last_byte d) (sequence d) (frames d) (stats d).
Definition set_owned l d := mk_dev (state d) (format d) (num_buffers d) (streaming d) l
  (done_list d) (completed d) (buf_list d) (filling d) (last_byte d) (sequence d) (frames d) (stats d).
Definition set_done_list l d := mk_dev (state d) (format d) (num_buffers d) (streaming d) (owned d)
  l (completed d) (buf_list d) (filling d) (last_byte d) (sequence d) (frames d) (stats d).
Definition set_completed l d := mk_dev (state d) (format d) (num_buffers d) (streaming d) (owned d)
  (done_list d) l (buf_list d) (filling d) (last_byte d) (sequence d) (frames d) (stats d).
Definition set_buf_list l d := mk_dev (state d) (format d) (num_buffers d) (streaming d) (owned d)
  (done_list d) (completed d) l (filling d) (last_byte d) (sequence d) (frames d) (stats d).
Definition set_filling o d := mk_dev (state d) (format d) (num_buffers d) (streaming d) (owned d)
  (done_list d) (completed d) (buf_list d) o (last_byte d) (sequence d) (frames d) (stats d).
Definition set_last_byte o d := mk_dev (state d) (format d) (num_buffers d) (streaming d) (owned d)
  (done_list d) (completed d) (buf_list d) (filling d) o (sequence d) (frames d) (stats d).
Definition set_sequence n d := mk_dev (state d) (format d) (num_buffers d) (streaming d) (owned d)
  (done_list d) (completed d) (buf_list d) (filling d) (last_byte d) n (frames d) (stats d).
Definition set_frames l d := mk_dev (state d) (format d) (num_buffers d) (streaming d) (owned d)
  (done_list d) (completed d) (buf_list d) (filling d) (last_byte d) (sequence d) l (stats d).
Definition set_stats s d := mk_dev (state d) (format d) (num_buffers d) (streaming d) (owned d)
  (done_list d) (completed d) (buf_list d) (filling d) (last_byte d) (sequence d) (frames d) s.

(** [camera_probe]: a [kzalloc]ed device, [CAMERA_STATE_CONNECTED], an
    empty buffer list and queue, and the default format of
    [camera_create_video_device]. *)
Definition camera_probe_state : camera_device :=
  mk_dev CAMERA_STATE_CONNECTED default_format 0 false [] [] [] [] None None 0 [] zero_stats.

(** [vb2_is_busy]: the queue has allocated buffers. *)
Definition vb2_is_busy (d : camera_device) : bool := (0 <? num_buffers d)%nat.

(** [camera_s_fmt]: returns the error code, the caller's format as left by
    the call, and the device. *)
Definition camera_s_fmt (d : camera_device) (f : v4l2_pix_format)
  : Z * v4l2_pix_format * camera_device :=
  if vb2_is_busy d then (- EBUSY, f, d)
  else
    let '(ret, f) := camera_try_fmt f in
    if negb (ret =? 0) then (ret, f, d)
    else (0, f, set_format f d).

(** [camera_queue_setup]: in [*nbuffers], [*nplanes], [sizes[0]]; out the
    return code and the three updated values. *)
Definition camera_queue_setup (d : camera_device) (nbuffers nplanes : nat) (sizes0 : Z)
  : Z * nat * nat * Z :=
  let size := sizeimage (format d) in
  if negb (nplanes =? 0)%nat then
    ((if sizes0 <? size then - EINVAL else 0), nbuffers, nplanes, sizes0)
  else
    (* Ensure minimum number of buffers *)
    let nb := if (nbuffers <? MIN_BUFFERS)%nat then MIN_BUFFERS else nbuffers in
    (* Limit maximum buffers for memory conservation *)
    let nb := if (MAX_BUFFERS <? nb)%nat then MAX_BUFFERS else nb in
    (0, nb, 1%nat, size).

(** [vb2_buffer_done]: the buffer is handed back to videobuf2 and put on
    its done list. *)
Definition vb2_buffer_done (i : nat) (st : vb2_buffer_state) (d : camera_device) :=
  set_done_list (done_list d ++ [i]) (set_completed (completed d ++ [(i, st)]) d).

(** [camera_buf_queue]: [list_add_tail(&buf->list, &dev->buf_list)]. *)
Definition camera_buf_queue (d : camera_device) (i : nat) : camera_device :=
  set_buf_list (buf_list d ++ [i]) d.

(** The body of [list_for_each_entry_safe] in [camera_return_all_buffers]:
    unlink the head, then complete it. *)
Fixpoint return_list (st : vb2_buffer_state) (l : list nat) (d : camera_device) :=
  match l with
  | [] => d
  | i :: rest => return_list st rest (vb2_buffer_done i st (set_buf_list rest d))
  end.

Definition camera_return_all_buffers (d : camera_device) (st : vb2_buffer_state) :=
  return_list st (buf_list d) d.

(** [camera_init_streaming] and [camera_stop_usb_streaming] are
    placeholders in the source. *)
Definition camera_init_streaming (d : camera_device) : Z := 0.
Definition camera_stop_usb_streaming (d : camera_device) : camera_device := d.

Definition camera_start_streaming (d : camera_device) (count : nat) : Z * camera_device :=
  let ret := camera_init_streaming d in
  if negb (ret =? 0) then (ret, d)
  else
    let s := stats d in
    (0, set_stats (mk_stats 0 0 (bytes_received s) (errors s))
          (set_state CAMERA_STATE_STREAMING d)).

Definition camera_stop_streaming (d : camera_device) : camera_device :=
  let d := camera_stop_usb_streaming d in
  let d := camera_return_all_buffers d VB2_BUF_STATE_ERROR in
  set_state CAMERA_STATE_CONNECTED d.

(** ** The videobuf2 core around the callbacks

    Modelled after the kernel's videobuf2 core (vb2_core_reqbufs,
    vb2_core_qbuf, vb2_core_dqbuf, vb2_core_streamon, vb2_core_streamoff
    and vb2_queue_release) for a queue with [min_buffers_needed = 0], as
    set up by [camera_init_vb2_queue]. *)

(** REQBUFS: refused while streaming; otherwise the old buffers are freed,
    a count of 0 stops there, and any other count, bounded by
    [VB2_MAX_FRAME], goes through [queue_setup] with [*nplanes = 0]; a zero
    plane size is refused. *)
Definition vb2_reqbufs (d : camera_device) (count : nat) : Z * camera_device :=
  if streaming d then (- EBUSY, d)
  else
    let d := set_done_list [] (set_owned [] (set_num_buffers 0 d)) in
    if (count =? 0)%nat then (0, d)
    else
      let '(ret, nb, np, size) := camera_queue_setup d (Nat.min count VB2_MAX_FRAME) 0 0 in
      if negb (ret =? 0) then (ret, d)
      else if size =? 0 then (- EINVAL, d)
      else (0, set_num_buffers nb d).

(** QBUF: the index must be allocated and with the user; the buffer goes
    to the driver at once when streaming. *)
Definition vb2_qbuf (d : camera_device) (i : nat) : Z * camera_device :=
  if (num_buffers d <=? i)%nat || existsb (Nat.eqb i) (owned d) then (- EINVAL, d)
  else
    let d := set_owned (owned d ++ [i]) d in
    if streaming d then (0, camera_buf_queue d i) else (0, d).

(** DQBUF (non-blocking): the oldest completed buffer goes back to the user. *)
Definition vb2_dqbuf (d : camera_device) : Z * option nat * camera_device :=
  match done_list d with
  | [] => (- EAGAIN, None, d)
  | i :: rest =>
      (0, Some i, set_owned (filter (fun j => negb (Nat.eqb i j)) (owned d)) (set_done_list rest d))
  end.

(** STREAMON: refused without buffers; the queued buffers are handed to
    [camera_buf_queue] in order, then [camera_start_streaming] runs. *)
Definition vb2_streamon (d : camera_device) : Z * camera_device :=
  if streaming d then (0, d)
  else if (num_buffers d =? 0)%nat then (- EINVAL, d)
  else
    let d1 := fold_left camera_buf_queue (owned d) d in
    let '(ret, d2) := camera_start_streaming d1 (length (owned d)) in
    if negb (ret =? 0) then (ret, d)
    else (0, set_streaming true d2).

(** STREAMOFF ([__vb2_queue_cancel]): [camera_stop_streaming] runs if
    streaming was started, then every buffer returns to the user. *)
Definition vb2_streamoff (d : camera_device) : Z * camera_device :=
  let d := if streaming d then camera_stop_streaming d else d in
  (0, set_done_list [] (set_owned [] (set_streaming false d))).

(** File release ([vb2_queue_release]): cancel, then free the buffers. *)
Definition vb2_release (d : camera_device) : camera_device :=
  set_num_buffers 0 (snd (vb2_streamoff d)).

(** ** URB completion path

    Modelled from the spec: [camera_urb_complete], [camera_get_next_buffer]
    and [camera_buffer_done] are only declared in camera_driver.h.  This
    follows the FrameAssembler of the spec (section 4.2) with the
    backpressure rule of section 5: a buffer is acquired from the head of
    [dev->buf_list], a finished frame is completed with
    [VB2_BUF_STATE_DONE], every received byte counts in [bytes_received],
    and a span arriving with no free buffer is a dropped frame. *)

Definition acquire (d : camera_device) : option (nat * camera_device) :=
  match buf_list d with
  | [] => None
  | i :: rest => Some (i, set_buf_list rest d)
  end.

Definition add_bytes (n : nat) (d : camera_device) : camera_device :=
  let s := stats d in
  set_stats (mk_stats (frames_received s) (frames_dropped s) (bytes_received s + n) (errors s)) d.

Definition drop_frame (d : camera_device) : camera_device :=
  let s := stats d in
  set_stats (mk_stats (frames_received s) (S (frames_dropped s)) (bytes_received s) (errors s)) d.

Definition count_error (d : camera_device) : camera_device :=
  let s := stats d in
  set_stats (mk_stats (frames_received s) (frames_dropped s) (bytes_received s) (S (errors s))) d.

(** [mark_ready]: Filling -> Ready with its fill level and sequence number. *)
Definition mark_ready (i filled : nat) (d : camera_device) : camera_device :=
  let s := stats d in
  let d := set_frames (frames d ++ [(i, filled, sequence d)]) d in
  let d := set_sequence (S (sequence d)) d in
  let d := set_stats (mk_stats (S (frames_received s)) (frames_dropped s) (bytes_received s) (errors s)) d in
  vb2_buffer_done i VB2_BUF_STATE_DONE d.

(** YUYV: a span is appended to the Filling buffer, truncated to the room
    left (the overflow is a dropped-frame event); at [sizeimage] bytes the
    buffer is Ready and the next Filling buffer is acquired. *)
Definition yuyv_span (d : camera_device) (span : list byte) : camera_device :=
  let len := length span in
  if (len =? 0)%nat then d
  else
    let d := add_bytes len d in
    let size := Z.to_nat (sizeimage (format d)) in
    let cur :=
      match filling d with
      | Some b => Some (b, d)
      | None =>
          match acquire d with
          | Some (i, d') => Some ((i, 0%nat), d')
          | None => None
          end
      end in
    match cur with
    | None => drop_frame d
    | Some ((i, k), d) =>
        let room := (size - k)%nat in
        let k' := (k + Nat.min len room)%nat in
        let d := if (room <? len)%nat then drop_frame d else d in
        if (k' =? size)%nat then
          let d := mark_ready i k' (set_filling None d) in
          match acquire d with
          | Some (j, d') => set_filling (Some (j, 0%nat)) d'
          | None => d
          end
        else set_filling (Some (i, k')) d
    end.

(** MJPEG: a byte scanner with one byte of lookback.  Outside a frame,
    bytes are discarded until the start marker FF D8, which opens a frame
    of two bytes in a newly acquired buffer; inside, bytes are appended up
    to the end marker FF D9, which makes the buffer Ready at its fill
    level; a buffer reaching [sizeimage] first is discarded as corrupt and
    scanning resumes. *)
Definition mjpeg_byte (d : camera_device) (b : byte) : camera_device :=
  let prev_ff := match last_byte d with Some x => Byte.eqb x xff | None => false end in
  let size := Z.to_nat (sizeimage (format d)) in
  let d' :=
    match filling d with
    | None =>
        if prev_ff && Byte.eqb b xd8 then
          match acquire d with
          | Some (i, d1) => set_filling (Some (i, 2%nat)) d1
          | None => drop_frame d
          end
        else d
    | Some (i, k) =>
        let k' := S k in
        if prev_ff && Byte.eqb b xd9 then mark_ready i k' (set_filling None d)
        else if (size <=? k')%nat then
          drop_frame (set_buf_list (i :: buf_list d) (set_filling None d))
        else set_filling (Some (i, k')) d
    end in
  set_last_byte (Some b) d'.

Definition mjpeg_span (d : camera_device) (span : list byte) : camera_device :=
  fold_left mjpeg_byte span (add_bytes (length span) d).

(** A completed transfer delivers a span; transfers only run while
    streaming. *)
Definition camera_urb_complete (d : camera_device) (span : list byte) : camera_device :=
  match state d with
  | CAMERA_STATE_STREAMING =>
      if pixelformat (format d) =? V4L2_PIX_FMT_YUYV then yuyv_span d span
      else mjpeg_span d span
  | _ => d
  end.

(** A transfer that completes with a transport error. *)
Definition camera_urb_error (d : camera_device) : camera_device :=
  match state d with
  | CAMERA_STATE_STREAMING => count_error d
  | _ => d
  end.

Definition feed (d : camera_device) (spans : list (list byte)) : camera_device :=
  fold_left camera_urb_complete spans d.

(** ** Operations and reachable states

    The device lives from [camera_probe] to [camera_disconnect], which
    frees it; in between, the operations below can happen in any order. *)

Inductive camera_op :=
| Op_s_fmt (f : v4l2_pix_format)
| Op_reqbufs (n : nat)
| Op_qbuf (i : nat)
| Op_dqbuf
| Op_streamon
| Op_streamoff
| Op_release
| Op_urb_complete (span : list byte)
| Op_urb_error.

Definition step (d : camera_device) (o : camera_op) : camera_device :=
  match o with
  | Op_s_fmt f => let '(_, _, d') := camera_s_fmt d f in d'
  | Op_reqbufs n => snd (vb2_reqbufs d n)
  | Op_qbuf i => snd (vb2_qbuf d i)
  | Op_dqbuf => snd (vb2_dqbuf d)
  | Op_streamon => snd (vb2_streamon d)
  | Op_streamoff => snd (vb2_streamoff d)
  | Op_release => vb2_release d
  | Op_urb_complete span => camera_urb_complete d span
  | Op_urb_error => camera_urb_error d
  end.

Inductive reachable : camera_device -> Prop :=
| reach_probe : reachable camera_probe_state
| reach_step d o : reachable d -> reachable (step d o).

Definition run (d : camera_device) (ops : list camera_op) : camera_device :=
  fold_left step ops d.

(** ** The remaining ioctls and videobuf2 callbacks *)

Definition V4L2_BUF_TYPE_VIDEO_CAPTURE : Z := 1.
Definition V4L2_FMT_FLAG_COMPRESSED : Z := 1.
Definition V4L2_FRMSIZE_TYPE_DISCRETE : Z := 1.

(** [CAMERA_MAX_FRAME_SIZE] of camera_driver.h. *)
Definition CAMERA_MAX_FRAME_SIZE : Z := 1280 * 720 * 2.

(** [struct v4l2_fmtdesc]; the fields are prefixed where their names
    would clash with those of [v4l2_pix_format]. *)
Record v4l2_fmtdesc := mk_fmtdesc {
  fmt_index : nat;
  fmt_type : Z;
  flags : Z;
  description : String.string;
  fmt_pixelformat : Z
}.

(** [formats[]]: the supported pixel formats. *)
Definition formats : list v4l2_fmtdesc :=
  [ mk_fmtdesc 0 V4L2_BUF_TYPE_VIDEO_CAPTURE V4L2_FMT_FLAG_COMPRESSED
      "Motion-JPEG"%string V4L2_PIX_FMT_MJPEG;
    mk_fmtdesc 1 V4L2_BUF_TYPE_VIDEO_CAPTURE 0
      "YUYV 4:2:2"%string V4L2_PIX_FMT_YUYV ].

(** [camera_enum_fmt]: the return code and [*f] as left by the call. *)
Definition camera_enum_fmt (f : v4l2_fmtdesc) : Z * v4l2_fmtdesc :=
  if (length formats <=? fmt_index f)%nat then (- EINVAL, f)
  else (0, nth (fmt_index f) formats f).

(** [struct v4l2_frmsizeenum] with a discrete size. *)
Record v4l2_frmsizeenum := mk_frmsize {
  fs_index : nat;
  pixel_format : Z;
  fs_type : Z;
  discrete_width : Z;
  discrete_height : Z
}.

(** [frame_sizes[]]: the supported frame sizes. *)
Definition frame_sizes : list v4l2_frmsizeenum :=
  [ mk_frmsize 0 V4L2_PIX_FMT_MJPEG V4L2_FRMSIZE_TYPE_DISCRETE 640 480;
    mk_frmsize 1 V4L2_PIX_FMT_MJPEG V4L2_FRMSIZE_TYPE_DISCRETE 1280 720;
    mk_frmsize 0 V4L2_PIX_FMT_YUYV V4L2_FRMSIZE_TYPE_DISCRETE 640 480 ].

(** [camera_g_fmt]: [*f = dev->format]. *)
Definition camera_g_fmt (d : camera_device) : Z * v4l2_pix_format := (0, format d).

(** [camera_buf_prepare] for a buffer whose plane 0 has [plane_size]
    bytes: the return code and the payload set by
    [vb2_set_plane_payload], if any. *)
Definition camera_buf_prepare (d : camera_device) (plane_size : Z) : Z * option Z :=
  let size := sizeimage (format d) in
  if plane_size <? size then (- EINVAL, None)
  else (0, Some size).

(** ** Probe and disconnect

    The kernel objects [camera_probe] and [camera_disconnect] acquire and
    release, recorded in the order of the calls; the outcome of each
    kernel call the probe path makes is an input. *)

Definition ENOMEM : Z := 12.

Inductive probe_event :=
| Ev_kzalloc
| Ev_kfree
| Ev_v4l2_device_register
| Ev_v4l2_device_unregister
| Ev_video_device_alloc
| Ev_video_device_release
| Ev_video_register_device
| Ev_video_unregister_device
| Ev_usb_set_intfdata_dev
| Ev_usb_set_intfdata_null.

Scheme Boolean Equality for probe_event.

Record probe_env := mk_env {
  kzalloc_ok : bool;
  v4l2_device_register_ret : Z;
  vb2_queue_init_ret : Z;
  video_device_alloc_ok : bool;
  video_register_device_ret : Z
}.

(** [camera_init_vb2_queue] returns what [vb2_queue_init] returns. *)
Definition camera_init_vb2_queue (env : probe_env) : Z := vb2_queue_init_ret env.

(** [camera_create_video_device]: the return code, the events, and whether
    [dev->vdev] was set. *)
Definition camera_create_video_device (env : probe_env) : Z * list probe_event * bool :=
  if negb (video_device_alloc_ok env) then (- ENOMEM, [], false)
  else
    let ret := video_register_device_ret env in
    if negb (ret =? 0) then (ret, [Ev_video_device_alloc; Ev_video_device_release], false)
    else (0, [Ev_video_device_alloc; Ev_video_register_device], true).

(** What [usb_get_intfdata] finds: the device and whether [dev->vdev] is
    set. *)
Definition intfdata := option (camera_device * bool).

(** [camera_probe]: the return code, the events, and the interface data
    left behind. *)
Definition camera_probe (env : probe_env) : Z * list probe_event * intfdata :=
  if negb (kzalloc_ok env) then (- ENOMEM, [], None)
  else
    let ret := v4l2_device_register_ret env in
    if negb (ret =? 0) then (ret, [Ev_kzalloc; Ev_kfree], None)  (* error_free *)
    else
      let ret := camera_init_vb2_queue env in
      if negb (ret =? 0) then
        (ret, [Ev_kzalloc; Ev_v4l2_device_register;
               Ev_v4l2_device_unregister; Ev_kfree], None)  (* error_v4l2 *)
      else
        let '(ret, ev, vdev) := camera_create_video_device env in
        if negb (ret =? 0) then
          (ret, [Ev_kzalloc; Ev_v4l2_device_register] ++ ev ++
                [Ev_v4l2_device_unregister; Ev_kfree], None)  (* error_v4l2 *)
        else
          (0, [Ev_kzalloc; Ev_v4l2_device_register] ++ ev ++ [Ev_usb_set_intfdata_dev],
           Some (camera_probe_state, vdev)).

(** [camera_disconnect]: the events; the state set before [kfree] is not
    observable afterwards. *)
Definition camera_disconnect (data : intfdata) : list probe_event :=
  match data with
  | None => []
  | Some (_, vdev) =>
      (if vdev then [Ev_video_unregister_device] else []) ++
      [Ev_v4l2_device_unregister; Ev_usb_set_intfdata_null; Ev_kfree]
  end.

Definition count_ev (e : probe_event) (evs : list probe_event) : nat :=
  length (filter (probe_event_beq e) evs).

(** Every acquisition is matched by its release: [video_unregister_device]
    drops the last reference of the video device, whose release callback
    is [video_device_release]. *)
Definition resources_balanced (evs : list probe_event) : bool :=
  (count_ev Ev_kzalloc evs =? count_ev Ev_kfree evs)%nat &&
  (count_ev Ev_v4l2_device_register evs =? count_ev Ev_v4l2_device_unregister evs)%nat &&
  (count_ev Ev_video_register_device evs =? count_ev Ev_video_unregister_device evs)%nat &&
  (count_ev Ev_video_device_alloc evs =?
     count_ev Ev_video_device_release evs + count_ev Ev_video_unregister_device evs)%nat &&
  (count_ev Ev_usb_set_intfdata_dev evs =? count_ev Ev_usb_set_intfdata_null evs)%nat.

(** * Proofs *)

(** ** Format negotiation *)

(** Checking a boolean property on a range of integers. *)
Fixpoint all_in (p : Z -> bool) (lo : Z) (n : nat) : bool :=
  match n with
  | O => true
  | S n' => p lo && all_in p (lo + 1) n'
  end.

Lemma all_in_sound p n : forall lo, all_in p lo n = true ->
  forall x, lo <= x < lo + Z.of_nat n -> p x = true.
Proof.
  induction n as [|n IH]; intros lo H x Hx; simpl in *; [lia|].
  apply andb_true_iff in H as [H0 H1].
  destruct (Z.eq_dec x lo) as [->|Hne]; [exact H0|].
  apply (IH (lo + 1)); [exact H1|lia].
Qed.

(** What aligning a clamped dimension does, for every value the clamp can
    produce: the result stays in range, is a multiple of the alignment, is
    the least such value above the input, and is a fixed point of
    clamp-then-align. *)
Definition align_ok (lo hi a : Z) (c : Z) : bool :=
  let r := ALIGN c a in
  (lo <=? r) && (r <=? hi) && (r mod a =? 0) && (c <=? r) && (r <? c + a) &&
  (ALIGN (clamp r lo hi) a =? r).

Lemma width_align_all : all_in (align_ok 160 1280 16) 160 1121 = true.
Proof. vm_compute. reflexivity. Qed.

Lemma height_align_all : all_in (align_ok 120 720 2) 120 601 = true.
Proof. vm_compute. reflexivity. Qed.

Lemma clamp_range v lo hi : lo <= hi -> lo <= clamp v lo hi <= hi.
Proof. unfold clamp; lia. Qed.

Lemma align_width w : align_ok 160 1280 16 (clamp w 160 1280) = true.
Proof.
  apply (all_in_sound _ _ 160 width_align_all).
  pose proof (clamp_range w 160 1280). lia.
Qed.

Lemma align_height h : align_ok 120 720 2 (clamp h 120 720) = true.
Proof.
  apply (all_in_sound _ _ 120 height_align_all).
  pose proof (clamp_range h 120 720). lia.
Qed.

Ltac align_facts H :=
  unfold align_ok in H; repeat rewrite andb_true_iff in H;
  repeat rewrite Z.leb_le in H; repeat rewrite Z.ltb_lt in H;
  repeat rewrite Z.eqb_eq in H.

Definition yuyv_640 : v4l2_pix_format := mk_pix 640 480 V4L2_PIX_FMT_YUYV 0 0 0 0.

(** [camera_try_fmt] field by field. *)
Definition try_pf (f : v4l2_pix_format) : Z :=
  if negb (pixelformat f =? V4L2_PIX_FMT_MJPEG) &&
     negb (pixelformat f =? V4L2_PIX_FMT_YUYV)
  then V4L2_PIX_FMT_MJPEG else pixelformat f.

Lemma try_fmt_fields f :
  let w := ALIGN (clamp (width f) 160 1280) 16 in
  let h := ALIGN (clamp (height f) 120 720) 2 in
  camera_try_fmt f =
  (0, mk_pix w h (try_pf f) V4L2_FIELD_NONE
        (if try_pf f =? V4L2_PIX_FMT_YUYV then u32 (w * 2) else 0)
        (if try_pf f =? V4L2_PIX_FMT_YUYV then u32 (u32 (w * 2) * h) else u32 (w * h))
        V4L2_COLORSPACE_SRGB).
Proof.
  intros w h. unfold camera_try_fmt. fold (try_pf f). fold w h.
  destruct (try_pf f =? V4L2_PIX_FMT_YUYV); reflexivity.
Qed.

(** The pixel format chosen by [camera_try_fmt] is MJPEG or YUYV. *)
Lemma try_pf_cases f :
  try_pf f = V4L2_PIX_FMT_MJPEG \/ try_pf f = V4L2_PIX_FMT_YUYV.
Proof.
  unfold try_pf.
  destruct (pixelformat f =? V4L2_PIX_FMT_MJPEG) eqn:E1;
  destruct (pixelformat f =? V4L2_PIX_FMT_YUYV) eqn:E2; simpl;
  rewrite ?Z.eqb_eq in *; auto.
Qed.

Lemma try_pf_idem f : try_pf (snd (camera_try_fmt f)) = try_pf f.
Proof.
  rewrite try_fmt_fields. unfold try_pf at 1. simpl.
  destruct (try_pf_cases f) as [E|E]; rewrite E; reflexivity.
Qed.

Lemma u32_small z : 0 <= z < 2 ^ 32 -> u32 z = z.
Proof. intros. unfold u32. apply Z.mod_small. lia. Qed.

(** C2 *)
(** Claim C2: [camera_try_fmt] (and so [camera_s_fmt]) clamps the width
    into [160,1280] and the height into [120,720], then aligns the width up
    to a multiple of 16 and the height up to a multiple of 2; the returned
    format carries exactly these values. *)
Theorem try_fmt_clamp_align (f : v4l2_pix_format) :
  let f' := snd (camera_try_fmt f) in
  let cw := clamp (width f) 160 1280 in
  let ch := clamp (height f) 120 720 in
  fst (camera_try_fmt f) = 0 /\
  width f' = ALIGN cw 16 /\ height f' = ALIGN ch 2 /\
  160 <= width f' <= 1280 /\ width f' mod 16 = 0 /\ cw <= width f' < cw + 16 /\
  120 <= height f' <= 720 /\ height f' mod 2 = 0 /\ ch <= height f' < ch + 2.
Proof.
  intros f' cw ch. subst f' cw ch. rewrite try_fmt_fields. simpl.
  pose proof (align_width (width f)) as Hw. pose proof (align_height (height f)) as Hh.
  align_facts Hw. align_facts Hh.
  repeat split; lia.
Qed.

(** C3 *)
(** Claim C3: after format negotiation, a YUYV format has
    [bytesperline = width * 2] and [sizeimage = width * height * 2], an
    MJPEG format has [sizeimage = width * height] (no 32-bit wrap-around
    occurs); 640x480 YUYV gives 614400 bytes. *)
Theorem try_fmt_sizeimage (f : v4l2_pix_format) :
  let f' := snd (camera_try_fmt f) in
  ((pixelformat f' = V4L2_PIX_FMT_YUYV /\ bytesperline f' = width f' * 2 /\
    sizeimage f' = width f' * height f' * 2) \/
   (pixelformat f' = V4L2_PIX_FMT_MJPEG /\ sizeimage f' = width f' * height f')) /\
  sizeimage (snd (camera_try_fmt yuyv_640)) = 614400.
Proof.
  intros f'. split; [|vm_compute; reflexivity].
  subst f'. rewrite try_fmt_fields. simpl.
  pose proof (align_width (width f)) as Hw. pose proof (align_height (height f)) as Hh.
  align_facts Hw. align_facts Hh.
  set (w := ALIGN (clamp (width f) 160 1280) 16) in *.
  set (h := ALIGN (clamp (height f) 120 720) 2) in *.
  destruct (try_pf_cases f) as [E|E]; rewrite E.
  - right. split; [reflexivity|]. simpl. apply u32_small. nia.
  - left. simpl. rewrite (u32_small (w * 2)) by lia.
    rewrite (u32_small (w * 2 * h)) by nia.
    repeat split; lia.
Qed.

(** C5 *)
(** Claim C5: a pixel format other than MJPEG and YUYV is not rejected by
    [camera_try_fmt]: the call returns 0 and the format becomes MJPEG. *)
Theorem try_fmt_coerces_unknown (f : v4l2_pix_format)
  (Hm : pixelformat f <> V4L2_PIX_FMT_MJPEG) (Hy : pixelformat f <> V4L2_PIX_FMT_YUYV) :
  fst (camera_try_fmt f) = 0 /\ pixelformat (snd (camera_try_fmt f)) = V4L2_PIX_FMT_MJPEG.
Proof.
  rewrite try_fmt_fields. simpl. split; [reflexivity|].
  unfold try_pf. apply Z.eqb_neq in Hm, Hy. rewrite Hm, Hy. reflexivity.
Qed.

Lemma try_fmt_coerces_unknown_witness :
  fst (camera_try_fmt (mk_pix 800 600 42 0 0 0 0)) = 0 /\
  pixelformat (snd (camera_try_fmt (mk_pix 800 600 42 0 0 0 0))) = V4L2_PIX_FMT_MJPEG.
Proof. apply try_fmt_coerces_unknown; vm_compute; discriminate. Defined.

(** C9 *)
(** Claim C9: [camera_try_fmt] is idempotent: applied to its own output it
    returns the same result again. *)
Theorem try_fmt_idempotent (f : v4l2_pix_format) :
  camera_try_fmt (snd (camera_try_fmt f)) = camera_try_fmt f.
Proof.
  rewrite (try_fmt_fields (snd (camera_try_fmt f))), try_pf_idem.
  rewrite try_fmt_fields. simpl.
  pose proof (align_width (width f)) as Hw. pose proof (align_height (height f)) as Hh.
  align_facts Hw. align_facts Hh.
  destruct Hw as [_ Hw], Hh as [_ Hh]. rewrite Hw, Hh. reflexivity.
Qed.

(** C10 *)
(** Claim C10: when the queue is not busy, [camera_s_fmt] always succeeds:
    it returns 0, hands back the negotiated format and stores it; its only
    error is [-EBUSY]. *)
Theorem s_fmt_not_busy (d : camera_device) (f : v4l2_pix_format)
  (Hidle : vb2_is_busy d = false) :
  camera_s_fmt d f = (0, snd (camera_try_fmt f), set_format (snd (camera_try_fmt f)) d).
Proof.
  unfold camera_s_fmt. rewrite Hidle, try_fmt_fields. reflexivity.
Qed.

Lemma s_fmt_not_busy_witness :
  camera_s_fmt camera_probe_state (mk_pix 5000 7 0 0 0 0 0) =
  (0, snd (camera_try_fmt (mk_pix 5000 7 0 0 0 0 0)),
   set_format (snd (camera_try_fmt (mk_pix 5000 7 0 0 0 0 0))) camera_probe_state).
Proof. apply s_fmt_not_busy. reflexivity. Defined.

(** ** Streaming and the busy queue *)

(** The control part of the device, which the completion path never
    writes. *)
Definition ctl (d : camera_device) := (state d, streaming d, num_buffers d, format d).

Lemma acquire_some d i d' : acquire d = Some (i, d') -> d' = set_buf_list (tl (buf_list d)) d.
Proof. unfold acquire. destruct (buf_list d); intros H; inversion H; reflexivity. Qed.

(** Case analysis over the branches of the completion path; what
    [acquire] returns is substituted back. *)
Ltac branch_case :=
  repeat (cbn beta iota zeta;
    match goal with
    | |- context [match acquire ?x with _ => _ end] =>
        let E := fresh "E" in
        destruct (acquire x) as [[? ?]|] eqn:E; [apply acquire_some in E; subst|]
    | |- context [if ?b then _ else _] => destruct b
    | |- context [match ?x with _ => _ end] =>
        lazymatch x with
        | match _ with _ => _ end => fail
        | _ => destruct x
        end
    end).

Lemma return_list_ctl st l : forall d, ctl (return_list st l d) = ctl d.
Proof. induction l as [|i l IH]; intros d; simpl; [reflexivity|]. rewrite IH. reflexivity. Qed.

Lemma buf_queue_fold_ctl l : forall d, ctl (fold_left camera_buf_queue l d) = ctl d.
Proof. induction l as [|i l IH]; intros d; simpl; [reflexivity|]. rewrite IH. reflexivity. Qed.

Lemma yuyv_span_ctl d s : ctl (yuyv_span d s) = ctl d.
Proof. unfold yuyv_span. branch_case; reflexivity. Qed.

Lemma mjpeg_byte_ctl d b : ctl (mjpeg_byte d b) = ctl d.
Proof. unfold mjpeg_byte. branch_case; reflexivity. Qed.

Lemma mjpeg_fold_ctl l : forall d, ctl (fold_left mjpeg_byte l d) = ctl d.
Proof.
  induction l as [|b l IH]; intros d; simpl; [reflexivity|].
  rewrite IH. apply mjpeg_byte_ctl.
Qed.

Lemma urb_complete_ctl d s : ctl (camera_urb_complete d s) = ctl d.
Proof.
  unfold camera_urb_complete. destruct (state d); try reflexivity.
  destruct (_ =? _).
  - apply yuyv_span_ctl.
  - unfold mjpeg_span. rewrite mjpeg_fold_ctl. reflexivity.
Qed.

Lemma urb_error_ctl d : ctl (camera_urb_error d) = ctl d.
Proof. unfold camera_urb_error. destruct (state d); reflexivity. Qed.

(** The invariant: the device is only marked streaming while the queue
    streams, and the queue only streams with buffers allocated. *)
Definition streaming_inv (d : camera_device) : Prop :=
  (state d = CAMERA_STATE_STREAMING -> streaming d = true) /\
  (streaming d = true -> (0 < num_buffers d)%nat).

Lemma streaming_inv_ctl d d' : ctl d' = ctl d -> streaming_inv d -> streaming_inv d'.
Proof.
  unfold ctl, streaming_inv. intros H. injection H as Hs Hst Hn _.
  rewrite Hs, Hst, Hn. tauto.
Qed.

Lemma streamoff_not_streaming d :
  streaming_inv d ->
  state (snd (vb2_streamoff d)) <> CAMERA_STATE_STREAMING /\
  streaming (snd (vb2_streamoff d)) = false /\
  num_buffers (snd (vb2_streamoff d)) = num_buffers d.
Proof.
  intros [H1 _]. unfold vb2_streamoff.
  destruct (streaming d) eqn:Es; simpl.
  - unfold camera_stop_streaming, camera_return_all_buffers.
    pose proof (return_list_ctl VB2_BUF_STATE_ERROR (buf_list (camera_stop_usb_streaming d))
                  (camera_stop_usb_streaming d)) as Hc.
    unfold ctl in Hc. injection Hc as _ _ Hn _.
    simpl. rewrite Hn. split; [discriminate|auto].
  - split; [|auto]. intros Hst. pose proof (H1 Hst). congruence.
Qed.

Lemma streaming_inv_step d o : streaming_inv d -> streaming_inv (step d o).
Proof.
  intros Hinv. pose proof Hinv as [H1 H2].
  destruct o as [f|n|i| | | | |s|]; simpl.
  - unfold camera_s_fmt. destruct (vb2_is_busy d); [exact Hinv|].
    destruct (camera_try_fmt f) as [ret f']. destruct (negb _); [exact Hinv|].
    exact Hinv.
  - unfold vb2_reqbufs. destruct (streaming d) eqn:Es; [exact Hinv|].
    assert (Hns : state d <> CAMERA_STATE_STREAMING)
      by (intros Hst; pose proof (H1 Hst); congruence).
    destruct (n =? 0)%nat.
    + split; simpl; [intros; contradiction|rewrite Es; discriminate].
    + destruct (camera_queue_setup _ _ _ _) as [[[ret nb] np] size].
      destruct (negb _); [|destruct (size =? 0)];
        split; simpl; try (intros; contradiction); rewrite Es; discriminate.
  - apply (streaming_inv_ctl d); [|exact Hinv].
    unfold vb2_qbuf, camera_buf_queue. branch_case; reflexivity.
  - apply (streaming_inv_ctl d); [|exact Hinv].
    unfold vb2_dqbuf. branch_case; reflexivity.
  - unfold vb2_streamon. destruct (streaming d) eqn:Es; [exact Hinv|].
    destruct (num_buffers d =? 0)%nat eqn:En; [exact Hinv|].
    pose proof (buf_queue_fold_ctl (owned d) d) as Hc.
    unfold ctl in Hc. injection Hc as _ _ Hn _.
    unfold camera_start_streaming, camera_init_streaming. simpl.
    split; simpl; [reflexivity|]. intros _. rewrite Hn.
    apply Nat.eqb_neq in En. lia.
  - destruct (streamoff_not_streaming d Hinv) as (A & B & _).
    split; [intros; contradiction|intros C; simpl in C; discriminate].
  - unfold vb2_release. destruct (streamoff_not_streaming d Hinv) as (A & B & _).
    split; simpl; [intros; contradiction|intros C; simpl in C; discriminate].
  - apply (streaming_inv_ctl d); [apply urb_complete_ctl|exact Hinv].
  - apply (streaming_inv_ctl d); [apply urb_error_ctl|exact Hinv].
Qed.

Lemma reachable_streaming_inv d : reachable d -> streaming_inv d.
Proof.
  induction 1 as [|d o _ IH].
  - split; simpl; discriminate.
  - apply streaming_inv_step, IH.
Qed.

Lemma reachable_run ops : forall d, reachable d -> reachable (run d ops).
Proof.
  induction ops as [|o ops IH]; intros d Hd; simpl; [exact Hd|].
  apply IH. constructor. exact Hd.
Qed.

(** C1 *)
(** Claim C1: in every reachable state where the device is
    [CAMERA_STATE_STREAMING], [camera_s_fmt] returns [-EBUSY] for any
    format and leaves the device, its stored format included, and the
    caller's format untouched. *)
Theorem s_fmt_streaming_busy (d : camera_device) (f : v4l2_pix_format)
  (Hreach : reachable d) (Hst : state d = CAMERA_STATE_STREAMING) :
  camera_s_fmt d f = (- EBUSY, f, d).
Proof.
  destruct (reachable_streaming_inv d Hreach) as [H1 H2].
  unfold camera_s_fmt, vb2_is_busy.
  apply Nat.ltb_lt in H2; [|exact (H1 Hst)]. rewrite H2. reflexivity.
Qed.

Definition streaming_640 : camera_device :=
  run camera_probe_state [Op_s_fmt yuyv_640; Op_reqbufs 4; Op_qbuf 0; Op_qbuf 1; Op_streamon].

Lemma s_fmt_streaming_busy_witness :
  camera_s_fmt streaming_640 (mk_pix 320 240 V4L2_PIX_FMT_MJPEG 0 0 0 0) =
  (- EBUSY, mk_pix 320 240 V4L2_PIX_FMT_MJPEG 0 0 0 0, streaming_640).
Proof.
  apply s_fmt_streaming_busy.
  - apply reachable_run, reach_probe.
  - vm_compute. reflexivity.
Defined.

(** ** Stopping the stream *)

Lemma return_list_spec st l : forall d,
  buf_list (return_list st l d) = (if l then buf_list d else []) /\
  completed (return_list st l d) = completed d ++ map (fun i => (i, st)) l /\
  state (return_list st l d) = state d.
Proof.
  induction l as [|i l IH]; intros d; simpl.
  - rewrite app_nil_r. auto.
  - destruct (IH (vb2_buffer_done i st (set_buf_list l d))) as (A & B & C).
    rewrite A, B, C. simpl. rewrite <- app_assoc. split; [|auto].
    destruct l; reflexivity.
Qed.

(** C6 *)
(** Claim C6: after [camera_stop_streaming] the device is
    [CAMERA_STATE_CONNECTED], [dev->buf_list] is empty, and every buffer
    that was on it has been completed with [VB2_BUF_STATE_ERROR], in list
    order, each exactly once. *)
Theorem stop_streaming_flushes (d : camera_device) :
  let d' := camera_stop_streaming d in
  state d' = CAMERA_STATE_CONNECTED /\
  buf_list d' = [] /\
  completed d' = completed d ++ map (fun i => (i, VB2_BUF_STATE_ERROR)) (buf_list d).
Proof.
  intros d'. subst d'. unfold camera_stop_streaming, camera_return_all_buffers.
  destruct (return_list_spec VB2_BUF_STATE_ERROR (buf_list (camera_stop_usb_streaming d))
              (camera_stop_usb_streaming d)) as (A & B & _).
  unfold camera_stop_usb_streaming in *. simpl. rewrite A, B.
  split; [reflexivity|split; [|reflexivity]].
  destruct (buf_list d); reflexivity.
Qed.

(** ** Buffer counts *)




(** ** Statistics *)

Definition stats_le (s1 s2 : statistics) : Prop :=
  (frames_received s1 <= frames_received s2 /\ frames_dropped s1 <= frames_dropped s2 /\
   bytes_received s1 <= bytes_received s2 /\ errors s1 <= errors s2)%nat.

Lemma stats_le_refl s : stats_le s s.
Proof. unfold stats_le. lia. Qed.

Lemma stats_le_trans s1 s2 s3 : stats_le s1 s2 -> stats_le s2 s3 -> stats_le s1 s3.
Proof. unfold stats_le. lia. Qed.

Lemma return_list_stats st l : forall d, stats (return_list st l d) = stats d.
Proof. induction l as [|i l IH]; intros d; simpl; [reflexivity|]. rewrite IH. reflexivity. Qed.

Lemma buf_queue_fold_stats l : forall d, stats (fold_left camera_buf_queue l d) = stats d.
Proof. induction l as [|i l IH]; intros d; simpl; [reflexivity|]. rewrite IH. reflexivity. Qed.

Lemma streamoff_stats d : stats (snd (vb2_streamoff d)) = stats d.
Proof.
  unfold vb2_streamoff. destruct (streaming d); simpl; [|reflexivity].
  unfold camera_stop_streaming, camera_return_all_buffers. simpl.
  apply return_list_stats.
Qed.

Lemma yuyv_span_stats d s : stats_le (stats d) (stats (yuyv_span d s)).
Proof. unfold yuyv_span. branch_case; unfold stats_le; simpl; lia. Qed.

Lemma mjpeg_byte_stats d b : stats_le (stats d) (stats (mjpeg_byte d b)).
Proof. unfold mjpeg_byte. branch_case; unfold stats_le; simpl; lia. Qed.

Lemma mjpeg_fold_stats l : forall d, stats_le (stats d) (stats (fold_left mjpeg_byte l d)).
Proof.
  induction l as [|b l IH]; intros d; simpl; [apply stats_le_refl|].
  eapply stats_le_trans; [apply mjpeg_byte_stats|apply IH].
Qed.

Lemma urb_complete_stats d s : stats_le (stats d) (stats (camera_urb_complete d s)).
Proof.
  unfold camera_urb_complete. destruct (state d); try apply stats_le_refl.
  destruct (_ =? _); [apply yuyv_span_stats|].
  unfold mjpeg_span. eapply stats_le_trans; [|apply mjpeg_fold_stats].
  unfold stats_le; simpl; lia.
Qed.

Lemma urb_error_stats d : stats_le (stats d) (stats (camera_urb_error d)).
Proof. unfold camera_urb_error. destruct (state d); unfold stats_le; simpl; lia. Qed.

(** C7 *)
(** Claim C7 fails: a device that has received a frame, stopped and
    restarted its stream loses the count, since [camera_start_streaming]
    sets [frames_received] back to 0. *)
Definition mjpeg_160 : v4l2_pix_format := mk_pix 160 120 V4L2_PIX_FMT_MJPEG 0 0 0 0.

Definition one_frame_stopped : camera_device :=
  run camera_probe_state
    [Op_s_fmt mjpeg_160; Op_reqbufs 2; Op_qbuf 0; Op_qbuf 1; Op_streamon;
     Op_urb_complete [xff; xd8; x00; xff; xd9]; Op_streamoff].

Lemma restart_resets_frames_received :
  exists d o, reachable d /\
    (frames_received (stats (step d o)) < frames_received (stats d))%nat.
Proof.
  exists one_frame_stopped, Op_streamon. split.
  - apply reachable_run, reach_probe.
  - vm_compute. lia.
Qed.

(** Claim C7 as the code has it: no operation decreases a counter, except
    STREAMON, whose [camera_start_streaming] resets [frames_received] and
    [frames_dropped] to 0 and keeps [bytes_received] and [errors]. *)
Theorem stats_monotone_except_start (d : camera_device) (o : camera_op) :
  stats_le (stats d) (stats (step d o)) \/
  (o = Op_streamon /\
   frames_received (stats (step d o)) = 0%nat /\ frames_dropped (stats (step d o)) = 0%nat /\
   bytes_received (stats (step d o)) = bytes_received (stats d) /\
   errors (stats (step d o)) = errors (stats d)).
Proof.
  destruct o as [f|n|i| | | | |s|]; cbn [step].
  - left. unfold camera_s_fmt. branch_case; apply stats_le_refl.
  - left. unfold vb2_reqbufs. branch_case; apply stats_le_refl.
  - left. unfold vb2_qbuf, camera_buf_queue. branch_case; apply stats_le_refl.
  - left. unfold vb2_dqbuf. branch_case; apply stats_le_refl.
  - unfold vb2_streamon. destruct (streaming d); [left; apply stats_le_refl|].
    destruct (num_buffers d =? 0)%nat; [left; apply stats_le_refl|].
    right. unfold camera_start_streaming, camera_init_streaming. simpl.
    rewrite buf_queue_fold_stats. auto.
  - left. rewrite streamoff_stats. apply stats_le_refl.
  - left. unfold vb2_release. cbn [stats set_num_buffers]. rewrite streamoff_stats. apply stats_le_refl.
  - left. apply urb_complete_stats.
  - left. apply urb_error_stats.
Qed.

(** ** YUYV frame assembly *)

(** One non-empty span that fits in the current frame. *)
Lemma yuyv_span_step d s i k size :
  Z.to_nat (sizeimage (format d)) = size ->
  (filling d = Some (i, k) \/ (filling d = None /\ k = 0%nat /\ hd_error (buf_list d) = Some i)) ->
  length s <> 0%nat -> (k + length s <= size)%nat ->
  let d' := yuyv_span d s in
  ctl d' = ctl d /\
  ((k + length s < size)%nat ->
     filling d' = Some (i, k + length s)%nat /\ frames d' = frames d /\
     completed d' = completed d /\ sequence d' = sequence d) /\
  ((k + length s = size)%nat ->
     frames d' = frames d ++ [(i, size, sequence d)] /\
     completed d' = completed d ++ [(i, VB2_BUF_STATE_DONE)]).
Proof.
  intros Hsize Hcur Hlen Hfit d'. split; [apply yuyv_span_ctl|]. subst d'.
  unfold yuyv_span. apply Nat.eqb_neq in Hlen. rewrite Hlen.
  change (sizeimage (format (add_bytes (length s) d))) with (sizeimage (format d)).
  rewrite Hsize.
  assert (Hroom : (size - k <? length s)%nat = false) by (apply Nat.ltb_ge; lia).
  assert (Hmin : Nat.min (length s) (size - k) = length s) by lia.
  change (filling (add_bytes (length s) d)) with (filling d).
  destruct (Nat.eq_dec (k + length s) size) as [Heq|Hne].
  all: destruct Hcur as [Hf|(Hf & -> & Hb)]; rewrite Hf.
  all: try (assert (Ha : acquire (add_bytes (length s) d) =
                   Some (i, set_buf_list (tl (buf_list d)) (add_bytes (length s) d)))
              by (unfold acquire; simpl; destruct (buf_list d); [discriminate|];
                  injection Hb as ->; reflexivity);
            rewrite Ha).
  all: cbn beta iota zeta; rewrite Hmin, Hroom.
  - replace (k + length s =? size)%nat with true by (symmetry; apply Nat.eqb_eq; lia).
    split; intros Hk; [lia|]. rewrite Heq, ?Nat.eqb_refl.
    match goal with |- context [acquire ?x] =>
      destruct (acquire x) as [[j d2]|] eqn:Ea; [apply acquire_some in Ea; subst d2|]
    end; simpl; repeat split.
  - cbn in Heq.
    split; intros Hk; [lia|]. rewrite Heq, ?Nat.eqb_refl.
    match goal with |- context [acquire ?x] =>
      destruct (acquire x) as [[j d2]|] eqn:Ea; [apply acquire_some in Ea; subst d2|]
    end; simpl; repeat split.
  - replace (k + length s =? size)%nat with false by (symmetry; apply Nat.eqb_neq; lia).
    split; intros Hk; [|lia]. simpl. repeat split.
  - change (0 + length s)%nat with (length s) in *.
    assert (E : (length s =? size)%nat = false) by (apply Nat.eqb_neq; lia).
    rewrite E. split; intros Hk; [|lia]. simpl. repeat split.
Qed.

Lemma urb_complete_yuyv d s :
  state d = CAMERA_STATE_STREAMING -> pixelformat (format d) = V4L2_PIX_FMT_YUYV ->
  camera_urb_complete d s = yuyv_span d s.
Proof. intros Hst Hpf. unfold camera_urb_complete. rewrite Hst, Hpf, Z.eqb_refl. reflexivity. Qed.

Lemma ctl_state_format d d' : ctl d' = ctl d -> state d' = state d /\ format d' = format d.
Proof. unfold ctl. intros H. injection H. auto. Qed.

(** Spans adding up to nothing change nothing. *)
Lemma yuyv_feed_empty spans : forall d,
  state d = CAMERA_STATE_STREAMING -> pixelformat (format d) = V4L2_PIX_FMT_YUYV ->
  list_sum (map (@length byte) spans) = 0%nat -> feed d spans = d.
Proof.
  induction spans as [|s rest IH]; intros d Hst Hpf Hsum; [reflexivity|].
  simpl in Hsum. unfold feed. simpl. fold (feed (camera_urb_complete d s) rest).
  rewrite urb_complete_yuyv by assumption.
  assert (E : (length s =? 0)%nat = true) by (apply Nat.eqb_eq; lia).
  replace (yuyv_span d s) with d by (unfold yuyv_span; rewrite E; reflexivity).
  apply IH; auto. lia.
Qed.

Lemma yuyv_feed_frame spans : forall d i k size,
  state d = CAMERA_STATE_STREAMING -> pixelformat (format d) = V4L2_PIX_FMT_YUYV ->
  Z.to_nat (sizeimage (format d)) = size ->
  (filling d = Some (i, k) \/ (filling d = None /\ k = 0%nat /\ hd_error (buf_list d) = Some i)) ->
  (k < size)%nat -> (k + list_sum (map (@length byte) spans) = size)%nat ->
  frames (feed d spans) = frames d ++ [(i, size, sequence d)] /\
  completed (feed d spans) = completed d ++ [(i, VB2_BUF_STATE_DONE)].
Proof.
  induction spans as [|s rest IH]; intros d i k size Hst Hpf Hsize Hcur Hk Hsum.
  - simpl in Hsum. lia.
  - simpl in Hsum. unfold feed. simpl. fold (feed (camera_urb_complete d s) rest).
    rewrite urb_complete_yuyv by assumption.
    destruct (length s =? 0)%nat eqn:E.
    + replace (yuyv_span d s) with d by (unfold yuyv_span; rewrite E; reflexivity).
      apply Nat.eqb_eq in E. apply (IH d i k size); auto. lia.
    + apply Nat.eqb_neq in E.
      destruct (yuyv_span_step d s i k size Hsize Hcur E ltac:(lia)) as (Hc & Hlt & Heq).
      destruct (ctl_state_format _ _ Hc) as [Hst' Hfmt'].
      destruct (Nat.lt_ge_cases (k + length s) size) as [L|L].
      * destruct (Hlt L) as (Hf' & Hfr & Hco & Hse).
        rewrite <- Hfr, <- Hco, <- Hse.
        apply (IH _ i (k + length s)%nat size);
          [rewrite Hst'; exact Hst | rewrite Hfmt'; exact Hpf | rewrite Hfmt'; exact Hsize
          | left; exact Hf' | lia | lia].
      * destruct (Heq ltac:(lia)) as [Hfr Hco].
        rewrite yuyv_feed_empty; [auto| |rewrite Hfmt'; exact Hpf|lia].
        rewrite Hst'. exact Hst.
Qed.

(** C8 *)
(** Claim C8: in YUYV mode, a stream of total length [sizeimage] split
    into spans in any way (single bytes, one span of the full length, with
    empty spans anywhere) makes exactly one buffer Ready, the first free
    one, filled with [sizeimage] bytes: one entry is added to the Ready
    buffers and one [VB2_BUF_STATE_DONE] completion is made. *)
Theorem yuyv_any_split_one_frame (d : camera_device) (spans : list (list byte))
  (i : nat) (rest : list nat)
  (Hst : state d = CAMERA_STATE_STREAMING)
  (Hpf : pixelformat (format d) = V4L2_PIX_FMT_YUYV)
  (Hfill : filling d = None) (Hbufs : buf_list d = i :: rest)
  (Hpos : 0 < sizeimage (format d))
  (Hlen : list_sum (map (@length byte) spans) = Z.to_nat (sizeimage (format d))) :
  frames (feed d spans) = frames d ++ [(i, Z.to_nat (sizeimage (format d)), sequence d)] /\
  completed (feed d spans) = completed d ++ [(i, VB2_BUF_STATE_DONE)].
Proof.
  apply (yuyv_feed_frame spans d i 0 _ Hst Hpf eq_refl).
  - right. rewrite Hbufs. auto.
  - lia.
  - lia.
Qed.

(** The scenario of the spec: 640x480 YUYV, three spans of 204800 bytes. *)
Lemma yuyv_any_split_one_frame_witness :
  let spans := [repeat x00 204800; repeat x01 204800; repeat x02 204800] in
  frames (feed streaming_640 spans) =
    frames streaming_640 ++ [(0%nat, Z.to_nat (sizeimage (format streaming_640)), sequence streaming_640)] /\
  completed (feed streaming_640 spans) = completed streaming_640 ++ [(0%nat, VB2_BUF_STATE_DONE)].
Proof.
  intros spans.
  apply (yuyv_any_split_one_frame streaming_640 spans 0 [1%nat]).
  - vm_compute. reflexivity.
  - vm_compute. reflexivity.
  - vm_compute. reflexivity.
  - vm_compute. reflexivity.
  - vm_compute. reflexivity.
  - apply Nat.eqb_eq. vm_compute. reflexivity.
Defined.

(** ** Format enumeration, negotiation and the stored format *)

(** X1 *)
(** [camera_enum_fmt] refuses every index from 2 on with [-EINVAL],
    leaving the descriptor as it was; indices 0 and 1 succeed and return
    a video-capture descriptor carrying the requested index, flagged
    compressed exactly when it is MJPEG. *)
Theorem enum_fmt_index (f : v4l2_fmtdesc) :
  ((2 <= fmt_index f)%nat -> camera_enum_fmt f = (- EINVAL, f)) /\
  ((fmt_index f < 2)%nat ->
     let f' := snd (camera_enum_fmt f) in
     fst (camera_enum_fmt f) = 0 /\ fmt_index f' = fmt_index f /\
     fmt_type f' = V4L2_BUF_TYPE_VIDEO_CAPTURE /\
     (flags f' = V4L2_FMT_FLAG_COMPRESSED <-> fmt_pixelformat f' = V4L2_PIX_FMT_MJPEG)).
Proof.
  unfold camera_enum_fmt. simpl.
  destruct (fmt_index f) as [|[|n]] eqn:E; simpl.
  - split; [lia|]. intros _. repeat split; reflexivity.
  - split; [lia|]. intros _. repeat split; try reflexivity; vm_compute; discriminate.
  - split; [reflexivity|lia].
Qed.

(** The pixel format [camera_try_fmt] settles on for a given requested
    one. *)
Lemma try_pf_kept p : try_pf (mk_pix 0 0 p 0 0 0 0) = p <-> p = V4L2_PIX_FMT_MJPEG \/ p = V4L2_PIX_FMT_YUYV.
Proof.
  unfold try_pf. simpl.
  destruct (p =? V4L2_PIX_FMT_MJPEG) eqn:E1; destruct (p =? V4L2_PIX_FMT_YUYV) eqn:E2;
    simpl; rewrite ?Z.eqb_eq, ?Z.eqb_neq in *; split; intros H;
    try (subst; auto; fail); destruct H; contradiction.
Qed.

Lemma try_pf_pixelformat f : pixelformat (snd (camera_try_fmt f)) = try_pf f.
Proof. rewrite try_fmt_fields. reflexivity. Qed.

Lemma try_pf_only_pixelformat f : try_pf f = try_pf (mk_pix 0 0 (pixelformat f) 0 0 0 0).
Proof. reflexivity. Qed.

(** X2 *)
(** The pixel formats [camera_enum_fmt] enumerates are exactly those
    [camera_try_fmt] keeps: a requested pixel format survives negotiation
    if and only if some index enumerates it. *)
Theorem enum_fmt_exactly_kept (p : Z) :
  (exists f f', camera_enum_fmt f = (0, f') /\ fmt_pixelformat f' = p) <->
  (forall pix, pixelformat pix = p -> pixelformat (snd (camera_try_fmt pix)) = p).
Proof.
  split.
  - intros (f & f' & H & Hp) pix Hpix.
    rewrite try_pf_pixelformat, try_pf_only_pixelformat, Hpix.
    apply try_pf_kept. unfold camera_enum_fmt in H. simpl in H.
    destruct (fmt_index f) as [|[|n]]; simpl in H; inversion H; subst; simpl; auto.
  - intros H. specialize (H (mk_pix 0 0 p 0 0 0 0) eq_refl).
    rewrite try_pf_pixelformat in H. apply try_pf_kept in H as [->| ->].
    + exists (mk_fmtdesc 0 0 0 EmptyString 0), (nth 0 formats (mk_fmtdesc 0 0 0 EmptyString 0)).
      split; reflexivity.
    + exists (mk_fmtdesc 1 0 0 EmptyString 0), (nth 1 formats (mk_fmtdesc 1 0 0 EmptyString 0)).
      split; reflexivity.
Qed.

(** The dimensions and size of a negotiated format. *)
Lemma try_fmt_dims f :
  let f' := snd (camera_try_fmt f) in
  160 <= width f' <= 1280 /\ 120 <= height f' <= 720 /\
  ((pixelformat f' = V4L2_PIX_FMT_YUYV /\ sizeimage f' = width f' * height f' * 2) \/
   (pixelformat f' = V4L2_PIX_FMT_MJPEG /\ sizeimage f' = width f' * height f')).
Proof.
  intros f'. subst f'. rewrite try_fmt_fields. simpl.
  pose proof (align_width (width f)) as Hw. pose proof (align_height (height f)) as Hh.
  align_facts Hw. align_facts Hh.
  set (w := ALIGN (clamp (width f) 160 1280) 16) in *.
  set (h := ALIGN (clamp (height f) 120 720) 2) in *.
  split; [lia|split; [lia|]].
  destruct (try_pf_cases f) as [E|E]; rewrite E.
  - right. split; [reflexivity|]. simpl. apply u32_small. nia.
  - left. simpl. rewrite (u32_small (w * 2)) by lia.
    rewrite (u32_small (w * 2 * h)) by nia. split; [reflexivity|lia].
Qed.

Lemma try_fmt_fixpoint f : camera_try_fmt (snd (camera_try_fmt f)) = (0, snd (camera_try_fmt f)).
Proof.
  rewrite (try_fmt_fields (snd (camera_try_fmt f))), try_pf_idem.
  rewrite try_fmt_fields. simpl.
  pose proof (align_width (width f)) as Hw. pose proof (align_height (height f)) as Hh.
  align_facts Hw. align_facts Hh.
  destruct Hw as [_ Hw], Hh as [_ Hh]. rewrite Hw, Hh. reflexivity.
Qed.

(** X3 *)
(** Every entry of [frame_sizes[]] is negotiable unchanged: its pixel
    format is enumerated by [camera_enum_fmt], and [camera_try_fmt] keeps
    its width, height and pixel format. *)
Theorem frame_sizes_negotiable (fs : v4l2_frmsizeenum) (f : v4l2_pix_format)
  (Hin : In fs frame_sizes) (Hp : pixelformat f = pixel_format fs)
  (Hw : width f = discrete_width fs) (Hh : height f = discrete_height fs) :
  (exists e e', camera_enum_fmt e = (0, e') /\ fmt_pixelformat e' = pixel_format fs) /\
  width (snd (camera_try_fmt f)) = discrete_width fs /\
  height (snd (camera_try_fmt f)) = discrete_height fs /\
  pixelformat (snd (camera_try_fmt f)) = pixel_format fs.
Proof.
  assert (Hm : exists e e', camera_enum_fmt e = (0, e') /\ fmt_pixelformat e' = V4L2_PIX_FMT_MJPEG)
    by (exists (mk_fmtdesc 0 0 0 EmptyString 0), (nth 0 formats (mk_fmtdesc 0 0 0 EmptyString 0));
        split; reflexivity).
  assert (Hy : exists e e', camera_enum_fmt e = (0, e') /\ fmt_pixelformat e' = V4L2_PIX_FMT_YUYV)
    by (exists (mk_fmtdesc 1 0 0 EmptyString 0), (nth 1 formats (mk_fmtdesc 1 0 0 EmptyString 0));
        split; reflexivity).
  rewrite try_fmt_fields. unfold try_pf. simpl.
  rewrite Hp, Hw, Hh.
  simpl in Hin. destruct Hin as [<-|[<-|[<-|[]]]]; simpl;
    (split; [assumption|]); vm_compute; repeat split.
Qed.

Lemma frame_sizes_negotiable_witness :
  (exists e e', camera_enum_fmt e = (0, e') /\ fmt_pixelformat e' = V4L2_PIX_FMT_MJPEG) /\
  width (snd (camera_try_fmt (mk_pix 1280 720 V4L2_PIX_FMT_MJPEG 0 0 0 0))) = 1280 /\
  height (snd (camera_try_fmt (mk_pix 1280 720 V4L2_PIX_FMT_MJPEG 0 0 0 0))) = 720 /\
  pixelformat (snd (camera_try_fmt (mk_pix 1280 720 V4L2_PIX_FMT_MJPEG 0 0 0 0))) = V4L2_PIX_FMT_MJPEG.
Proof.
  apply (frame_sizes_negotiable (mk_frmsize 1 V4L2_PIX_FMT_MJPEG V4L2_FRMSIZE_TYPE_DISCRETE 1280 720)).
  - simpl. auto.
  - reflexivity.
  - reflexivity.
  - reflexivity.
Defined.

(** X4 *)
(** A negotiated format never asks for an empty or oversized buffer:
    [sizeimage] lies between 160*120 bytes and [CAMERA_MAX_FRAME_SIZE], and
    an MJPEG estimate never exceeds 1280*720 bytes. *)
Theorem try_fmt_sizeimage_bounds (f : v4l2_pix_format) :
  let f' := snd (camera_try_fmt f) in
  160 * 120 <= sizeimage f' <= CAMERA_MAX_FRAME_SIZE /\
  (pixelformat f' = V4L2_PIX_FMT_MJPEG -> sizeimage f' <= 1280 * 720).
Proof.
  intros f'. destruct (try_fmt_dims f) as (Hw & Hh & [[Hp Hs]|[Hp Hs]]); fold f' in Hw, Hh, Hp, Hs;
    rewrite Hs; unfold CAMERA_MAX_FRAME_SIZE.
  - split; [nia|]. intros Hm. rewrite Hp in Hm. vm_compute in Hm. discriminate.
  - split; [nia|]. intros _. nia.
Qed.

Lemma streamoff_ctl_format d :
  format (snd (vb2_streamoff d)) = format d /\ num_buffers (snd (vb2_streamoff d)) = num_buffers d /\
  streaming (snd (vb2_streamoff d)) = false.
Proof.
  unfold vb2_streamoff. destruct (streaming d); simpl; [|auto].
  unfold camera_stop_streaming, camera_return_all_buffers.
  pose proof (return_list_ctl VB2_BUF_STATE_ERROR (buf_list (camera_stop_usb_streaming d))
                (camera_stop_usb_streaming d)) as Hc.
  unfold ctl in Hc. injection Hc as _ _ Hn Hf. simpl. auto.
Qed.

(** Only a successful [camera_s_fmt] on an idle queue changes the stored
    format, and it stores what [camera_try_fmt] returned. *)
Lemma format_step d o :
  format (step d o) = format d \/
  (exists f, o = Op_s_fmt f /\ vb2_is_busy d = false /\ format (step d o) = snd (camera_try_fmt f)).
Proof.
  destruct o as [f|n|i| | | | |s|]; simpl.
  - unfold camera_s_fmt. destruct (vb2_is_busy d) eqn:B; [left; reflexivity|].
    right. exists f. split; [reflexivity|split; [reflexivity|]].
    rewrite try_fmt_fields. reflexivity.
  - left. unfold vb2_reqbufs. destruct (streaming d); [reflexivity|].
    destruct (n =? 0)%nat; [reflexivity|].
    destruct (camera_queue_setup _ _ _ _) as [[[r nb] np] sz].
    destruct (negb _); [reflexivity|]. destruct (sz =? 0); reflexivity.
  - left. unfold vb2_qbuf, camera_buf_queue. branch_case; reflexivity.
  - left. unfold vb2_dqbuf. branch_case; reflexivity.
  - left. unfold vb2_streamon. destruct (streaming d); [reflexivity|].
    destruct (_ =? 0)%nat; [reflexivity|].
    pose proof (buf_queue_fold_ctl (owned d) d) as Hc.
    unfold ctl in Hc. injection Hc as _ _ _ Hf. exact Hf.
  - left. apply streamoff_ctl_format.
  - left. apply streamoff_ctl_format.
  - left. pose proof (urb_complete_ctl d s) as Hc. unfold ctl in Hc. congruence.
  - left. pose proof (urb_error_ctl d) as Hc. unfold ctl in Hc. congruence.
Qed.

Lemma reachable_format d : reachable d ->
  format d = default_format \/ camera_try_fmt (format d) = (0, format d).
Proof.
  induction 1 as [|d o _ IH]; [left; reflexivity|].
  destruct (format_step d o) as [->|(f & _ & _ & ->)]; [exact IH|].
  right. apply try_fmt_fixpoint.
Qed.

(** X5 *)
(** In every reachable state the stored format is either the default set
    at probe time or a format [camera_try_fmt] leaves unchanged (one it
    negotiated). *)
Theorem reachable_format_negotiated (d : camera_device) (Hreach : reachable d) :
  format d = default_format \/ camera_try_fmt (format d) = (0, format d).
Proof. exact (reachable_format d Hreach). Qed.

Lemma reachable_format_negotiated_witness :
  format streaming_640 = default_format \/
  camera_try_fmt (format streaming_640) = (0, format streaming_640).
Proof. apply reachable_format_negotiated, reachable_run, reach_probe. Defined.

(** The queue cannot hold buffers while the stored format has no size. *)
Definition no_size_inv (d : camera_device) : Prop :=
  sizeimage (format d) = 0 -> num_buffers d = 0%nat /\ streaming d = false.

Lemma reqbufs_no_size d n :
  sizeimage (format d) = 0 -> streaming d = false -> (n <> 0)%nat ->
  vb2_reqbufs d n = (- EINVAL, set_done_list [] (set_owned [] (set_num_buffers 0 d))).
Proof.
  intros Hs Hst Hn. unfold vb2_reqbufs. rewrite Hst.
  apply Nat.eqb_neq in Hn. rewrite Hn.
  unfold camera_queue_setup. simpl. rewrite Hs. reflexivity.
Qed.

Lemma no_size_inv_step d o : no_size_inv d -> no_size_inv (step d o).
Proof.
  unfold no_size_inv. intros Hinv.
  destruct o as [f|n|i| | | | |s|]; cbn [step].
  - unfold camera_s_fmt. destruct (vb2_is_busy d); [exact Hinv|].
    pose proof (try_fmt_dims f) as (Hw & Hh & Hsz).
    destruct (camera_try_fmt f) as [ret f'] eqn:E. simpl in Hw, Hh, Hsz.
    destruct (negb _); [exact Hinv|]. simpl. intros Hs.
    destruct Hsz as [[_ Hsz]|[_ Hsz]]; nia.
  - unfold vb2_reqbufs. destruct (streaming d) eqn:Es; [simpl; rewrite Es; exact Hinv|].
    destruct (n =? 0)%nat; [simpl; auto|].
    unfold camera_queue_setup. simpl.
    destruct (sizeimage (format d) =? 0) eqn:Ez; simpl; [auto|].
    intros Hs. apply Z.eqb_neq in Ez. contradiction.
  - unfold vb2_qbuf, camera_buf_queue. branch_case; exact Hinv.
  - unfold vb2_dqbuf. branch_case; exact Hinv.
  - unfold vb2_streamon. destruct (streaming d) eqn:Es; [simpl; rewrite Es; exact Hinv|].
    destruct (num_buffers d =? 0)%nat eqn:En; [simpl; rewrite Es; exact Hinv|].
    pose proof (buf_queue_fold_ctl (owned d) d) as Hc.
    unfold ctl in Hc. injection Hc as _ _ Hn Hf. simpl. rewrite Hf. intros Hs.
    destruct (Hinv Hs) as [Hn0 _]. apply Nat.eqb_neq in En. contradiction.
  - destruct (streamoff_ctl_format d) as (Hf & Hn & Hst). rewrite Hf, Hn, Hst.
    intros Hs. split; [apply (Hinv Hs)|reflexivity].
  - unfold vb2_release. destruct (streamoff_ctl_format d) as (Hf & Hn & Hst).
    cbn [format num_buffers streaming set_num_buffers]. rewrite Hst. auto.
  - pose proof (urb_complete_ctl d s) as Hc. unfold ctl in Hc. injection Hc as _ Hst Hn Hf.
    rewrite Hst, Hn, Hf. exact Hinv.
  - pose proof (urb_error_ctl d) as Hc. unfold ctl in Hc. injection Hc as _ Hst Hn Hf.
    rewrite Hst, Hn, Hf. exact Hinv.
Qed.

Lemma reachable_no_size_inv d : reachable d -> no_size_inv d.
Proof.
  induction 1 as [|d o _ IH]; [intros _; split; reflexivity|].
  apply no_size_inv_step, IH.
Qed.

(** X6 *)
(** As long as the stored format has no [sizeimage] (the default left by
    [camera_create_video_device] before any successful S_FMT), the queue
    holds no buffers and does not stream, and every REQBUFS for a
    non-zero count fails with [-EINVAL] because [camera_queue_setup]
    reports a zero plane size. *)
Theorem reachable_no_size_no_buffers (d : camera_device)
  (Hreach : reachable d) (Hs : sizeimage (format d) = 0) :
  num_buffers d = 0%nat /\ streaming d = false /\
  (forall n, (n <> 0)%nat -> fst (vb2_reqbufs d n) = - EINVAL /\ num_buffers (snd (vb2_reqbufs d n)) = 0%nat).
Proof.
  destruct (reachable_no_size_inv d Hreach Hs) as [Hn Hst]. split; [exact Hn|split; [exact Hst|]].
  intros n Hn0. rewrite (reqbufs_no_size d n Hs Hst Hn0). split; reflexivity.
Qed.

Lemma reachable_no_size_no_buffers_witness :
  let d := run camera_probe_state [Op_reqbufs 4; Op_qbuf 0; Op_streamon] in
  num_buffers d = 0%nat /\ streaming d = false /\
  (forall n, (n <> 0)%nat -> fst (vb2_reqbufs d n) = - EINVAL /\ num_buffers (snd (vb2_reqbufs d n)) = 0%nat).
Proof.
  intros d. apply reachable_no_size_no_buffers.
  - apply reachable_run, reach_probe.
  - vm_compute. reflexivity.
Defined.

(** X7 *)
(** On an idle queue, setting the format that [camera_g_fmt] reports is a
    no-op (returns 0 and the same format, device unchanged) exactly when
    the stored format is not the probe-time default: the default, whose
    [sizeimage] is 0, is changed by the round trip. *)
Theorem g_fmt_s_fmt_roundtrip (d : camera_device)
  (Hreach : reachable d) (Hidle : vb2_is_busy d = false) :
  fst (camera_g_fmt d) = 0 /\
  (camera_s_fmt d (snd (camera_g_fmt d)) = (0, format d, d) <-> format d <> default_format).
Proof.
  split; [reflexivity|]. unfold camera_g_fmt, camera_s_fmt. simpl. rewrite Hidle.
  split.
  - intros H Hdef. rewrite Hdef in H.
    rewrite try_fmt_fields in H. simpl in H. injection H as _ H.
    assert (Hsz : sizeimage (format (set_format (snd (camera_try_fmt default_format)) d)) =
                  sizeimage (format d)) by (rewrite try_fmt_fields; simpl; rewrite <- H; reflexivity).
    simpl in Hsz. rewrite Hdef in Hsz. vm_compute in Hsz. discriminate.
  - intros Hdef. destruct (reachable_format d Hreach) as [E|E]; [contradiction|].
    rewrite E. simpl. destruct d. reflexivity.
Qed.

Lemma g_fmt_s_fmt_roundtrip_witness :
  let d := run camera_probe_state [Op_s_fmt yuyv_640] in
  fst (camera_g_fmt d) = 0 /\
  (camera_s_fmt d (snd (camera_g_fmt d)) = (0, format d, d) <-> format d <> default_format).
Proof.
  intros d. apply g_fmt_s_fmt_roundtrip.
  - apply reachable_run, reach_probe.
  - vm_compute. reflexivity.
Defined.

(** ** Buffers while the queue is busy *)

(** X8 *)
(** While the queue holds buffers, no operation changes the stored format:
    [camera_s_fmt] refuses, and nothing else writes it. *)
Theorem format_frozen_while_busy (d : camera_device) (o : camera_op)
  (Hbusy : vb2_is_busy d = true) :
  format (step d o) = format d.
Proof.
  destruct (format_step d o) as [H|(f & _ & Hb & _)]; [exact H|congruence].
Qed.

Lemma format_frozen_while_busy_witness :
  format (step streaming_640 (Op_s_fmt mjpeg_160)) = format streaming_640.
Proof. apply format_frozen_while_busy. vm_compute. reflexivity. Defined.

(** X9 *)
(** [camera_buf_prepare] accepts a plane exactly when it holds
    [sizeimage] bytes, and then sets the payload to [sizeimage], which
    never exceeds the plane; a refused buffer gets no payload; the check
    [camera_queue_setup] makes when called with [*nplanes != 0] agrees
    with it. *)
Theorem buf_prepare_plane_size (d : camera_device) (p : Z) :
  (fst (camera_buf_prepare d p) = 0 <-> sizeimage (format d) <= p) /\
  (fst (camera_buf_prepare d p) <> 0 -> snd (camera_buf_prepare d p) = None) /\
  (forall x, snd (camera_buf_prepare d p) = Some x -> x = sizeimage (format d) /\ x <= p) /\
  (forall n np, (np <> 0)%nat ->
     fst (fst (fst (camera_queue_setup d n np p))) = fst (camera_buf_prepare d p)).
Proof.
  unfold camera_buf_prepare, camera_queue_setup. cbv zeta.
  destruct (p <? sizeimage (format d)) eqn:E; pose proof E as E';
    [apply Z.ltb_lt in E'|apply Z.ltb_ge in E']; simpl.
  - split; [split; [unfold EINVAL; lia|lia]|].
    split; [reflexivity|]. split; [discriminate|].
    intros n np Hnp. apply Nat.eqb_neq in Hnp. rewrite Hnp. reflexivity.
  - split; [split; [lia|reflexivity]|].
    split; [intros H; contradiction|]. split; [intros x H; injection H as <-; lia|].
    intros n np Hnp. apply Nat.eqb_neq in Hnp. rewrite Hnp. reflexivity.
Qed.

(** The queue stays busy along a run of operations. *)
Fixpoint stays_busy (d : camera_device) (ops : list camera_op) : bool :=
  vb2_is_busy d && match ops with [] => true | o :: ops => stays_busy (step d o) ops end.

(** The plane size REQBUFS allocates, as [camera_queue_setup] sets it. *)
Definition reqbufs_plane_size (d : camera_device) (n : nat) : Z :=
  let '(_, _, _, size) :=
    camera_queue_setup (set_done_list [] (set_owned [] (set_num_buffers 0 d)))
      (Nat.min n VB2_MAX_FRAME) 0 0 in size.

Lemma stays_busy_format ops : forall d, stays_busy d ops = true -> format (run d ops) = format d.
Proof.
  induction ops as [|o ops IH]; intros d H; simpl in *; [reflexivity|].
  apply andb_true_iff in H as [Hb H]. rewrite IH by exact H.
  destruct (format_step d o) as [E|(f & _ & Hb' & _)]; [exact E|congruence].
Qed.

(** X10 *)
(** The buffers a successful REQBUFS allocates pass [camera_buf_prepare],
    with the payload filling the plane, after any sequence of operations
    during which the queue keeps buffers allocated. *)
Theorem reqbufs_buffers_pass_prepare (d d' : camera_device) (n : nat) (ops : list camera_op)
  (Hr : vb2_reqbufs d n = (0, d')) (Hn : (n <> 0)%nat) (Hb : stays_busy d' ops = true) :
  camera_buf_prepare (run d' ops) (reqbufs_plane_size d n) = (0, Some (reqbufs_plane_size d n)).
Proof.
  assert (Hf : format d' = format d).
  { change d' with (snd (0, d')). rewrite <- Hr.
    destruct (format_step d (Op_reqbufs n)) as [E|(f & Ho & _)]; [exact E|discriminate]. }
  unfold camera_buf_prepare. rewrite (stays_busy_format ops d' Hb), Hf.
  unfold reqbufs_plane_size, camera_queue_setup. simpl.
  rewrite Z.ltb_irrefl. reflexivity.
Qed.

Lemma reqbufs_buffers_pass_prepare_witness :
  let d := run camera_probe_state [Op_s_fmt yuyv_640] in
  let d' := snd (vb2_reqbufs d 4) in
  camera_buf_prepare (run d' [Op_qbuf 0; Op_streamon; Op_s_fmt mjpeg_160; Op_streamoff; Op_reqbufs 3])
    (reqbufs_plane_size d 4) = (0, Some (reqbufs_plane_size d 4)).
Proof.
  intros d d'. apply reqbufs_buffers_pass_prepare.
  - vm_compute. reflexivity.
  - discriminate.
  - vm_compute. reflexivity.
Defined.

(** The part of the queue the completion path never writes. *)
Definition qctl (d : camera_device) := (num_buffers d, owned d).

Lemma return_list_qctl st l : forall d, qctl (return_list st l d) = qctl d.
Proof. induction l as [|i l IH]; intros d; simpl; [reflexivity|]. rewrite IH. reflexivity. Qed.

Lemma yuyv_span_qctl d s : qctl (yuyv_span d s) = qctl d.
Proof. unfold yuyv_span. branch_case; reflexivity. Qed.

Lemma mjpeg_byte_qctl d b : qctl (mjpeg_byte d b) = qctl d.
Proof. unfold mjpeg_byte. branch_case; reflexivity. Qed.

Lemma mjpeg_fold_qctl l : forall d, qctl (fold_left mjpeg_byte l d) = qctl d.
Proof.
  induction l as [|b l IH]; intros d; simpl; [reflexivity|].
  rewrite IH. apply mjpeg_byte_qctl.
Qed.

Lemma urb_complete_qctl d s : qctl (camera_urb_complete d s) = qctl d.
Proof.
  unfold camera_urb_complete. destruct (state d); try reflexivity.
  destruct (_ =? _).
  - apply yuyv_span_qctl.
  - unfold mjpeg_span. rewrite mjpeg_fold_qctl. reflexivity.
Qed.

Lemma urb_error_qctl d : qctl (camera_urb_error d) = qctl d.
Proof. unfold camera_urb_error. destruct (state d); reflexivity. Qed.

(** The buffer-queue invariant: at most [MAX_BUFFERS] buffers, and the
    queued ones are distinct allocated indices. *)
Definition buffers_inv (d : camera_device) : Prop :=
  (num_buffers d <= MAX_BUFFERS)%nat /\ NoDup (owned d) /\
  Forall (fun i => (i < num_buffers d)%nat) (owned d).

Lemma buffers_inv_qctl d d' : qctl d' = qctl d -> buffers_inv d -> buffers_inv d'.
Proof. unfold qctl, buffers_inv. intros H. injection H as Hn Ho. rewrite Hn, Ho. auto. Qed.

Lemma buffers_inv_cleared n d : (n <= MAX_BUFFERS)%nat -> buffers_inv (set_owned [] (set_num_buffers n d)).
Proof. intros H. split; [exact H|split; constructor]. Qed.

Lemma queue_setup_nb_le d n s r nb np sz :
  camera_queue_setup d n 0 s = (r, nb, np, sz) -> (nb <= MAX_BUFFERS)%nat.
Proof.
  unfold camera_queue_setup. simpl. intros H. injection H as _ <- _ _.
  unfold MIN_BUFFERS, MAX_BUFFERS.
  destruct (n <? 2)%nat; [destruct (4 <? 2)%nat eqn:E; [discriminate|lia]|].
  destruct (4 <? n)%nat eqn:E; [lia|apply Nat.ltb_ge in E; exact E].
Qed.

Lemma buffers_inv_step d o : buffers_inv d -> buffers_inv (step d o).
Proof.
  intros Hinv. pose proof Hinv as (Hmax & Hnd & Hall).
  destruct o as [f|n|i| | | | |s|]; cbn [step].
  - unfold camera_s_fmt. destruct (vb2_is_busy d); [exact Hinv|].
    destruct (camera_try_fmt f) as [ret f']. destruct (negb _); exact Hinv.
  - unfold vb2_reqbufs. destruct (streaming d); [exact Hinv|].
    destruct (n =? 0)%nat; [apply buffers_inv_cleared; unfold MAX_BUFFERS; lia|].
    destruct (camera_queue_setup _ _ _ _) as [[[r nb] np] sz] eqn:Eq.
    destruct (negb _); [apply buffers_inv_cleared; unfold MAX_BUFFERS; lia|].
    destruct (sz =? 0); [apply buffers_inv_cleared; unfold MAX_BUFFERS; lia|].
    split; [exact (queue_setup_nb_le _ _ _ _ _ _ _ Eq)|split; constructor].
  - unfold vb2_qbuf.
    destruct ((num_buffers d <=? i)%nat || existsb (Nat.eqb i) (owned d)) eqn:E; [exact Hinv|].
    apply orb_false_iff in E as [E1 E2]. apply Nat.leb_gt in E1.
    assert (Hni : ~ In i (owned d)).
    { intros Hin. assert (existsb (Nat.eqb i) (owned d) = true)
        by (apply existsb_exists; exists i; split; [exact Hin|apply Nat.eqb_refl]). congruence. }
    assert (Hq : buffers_inv (set_owned (owned d ++ [i]) d)).
    { split; [exact Hmax|split].
      - simpl. apply NoDup_app; [exact Hnd|constructor; [intros []|constructor]|].
        intros x Hx [<-|[]]. contradiction.
      - simpl. apply Forall_app. split; [exact Hall|constructor; [exact E1|constructor]]. }
    destruct (streaming _); [|exact Hq].
    apply (buffers_inv_qctl (set_owned (owned d ++ [i]) d)); [reflexivity|exact Hq].
  - unfold vb2_dqbuf. destruct (done_list d) as [|i rest]; [exact Hinv|].
    split; [exact Hmax|split].
    + simpl. apply NoDup_filter, Hnd.
    + simpl. apply Forall_forall. intros x Hx. apply filter_In in Hx as [Hx _].
      rewrite Forall_forall in Hall. apply Hall, Hx.
  - unfold vb2_streamon. destruct (streaming d); [exact Hinv|].
    destruct (num_buffers d =? 0)%nat; [exact Hinv|].
    assert (Hf : forall l d0, qctl (fold_left camera_buf_queue l d0) = qctl d0).
    { induction l as [|j l IH]; intros d0; simpl; [reflexivity|]. rewrite IH. reflexivity. }
    apply (buffers_inv_qctl d); [|exact Hinv].
    unfold camera_start_streaming, camera_init_streaming. simpl.
    specialize (Hf (owned d) d). unfold qctl in *. simpl. injection Hf as -> ->. reflexivity.
  - destruct (streamoff_ctl_format d) as (_ & Hn & _).
    unfold vb2_streamoff in *. split; [simpl in *; rewrite Hn; exact Hmax|split; constructor].
  - unfold vb2_release, vb2_streamoff. split; [simpl; unfold MAX_BUFFERS; lia|split; simpl; constructor].
  - apply (buffers_inv_qctl d); [apply urb_complete_qctl|exact Hinv].
  - apply (buffers_inv_qctl d); [apply urb_error_qctl|exact Hinv].
Qed.

(** X11 *)
(** In every reachable state the queue holds at most [MAX_BUFFERS]
    buffers, and the buffers queued by the user are distinct indices of
    allocated buffers. *)
Theorem reachable_buffers_bounded (d : camera_device) (Hreach : reachable d) :
  (num_buffers d <= MAX_BUFFERS)%nat /\ NoDup (owned d) /\
  Forall (fun i => (i < num_buffers d)%nat) (owned d).
Proof.
  induction Hreach as [|d o _ IH].
  - split; [unfold MAX_BUFFERS; simpl; lia|split; constructor].
  - apply buffers_inv_step, IH.
Qed.

Lemma reachable_buffers_bounded_witness :
  (num_buffers streaming_640 <= MAX_BUFFERS)%nat /\ NoDup (owned streaming_640) /\
  Forall (fun i => (i < num_buffers streaming_640)%nat) (owned streaming_640).
Proof. apply reachable_buffers_bounded, reachable_run, reach_probe. Defined.

(** ** Starting and stopping the stream *)

Lemma buf_queue_fold_spec l : forall d,
  let d' := fold_left camera_buf_queue l d in
  buf_list d' = buf_list d ++ l /\ completed d' = completed d /\ stats d' = stats d /\
  owned d' = owned d /\ num_buffers d' = num_buffers d /\ state d' = state d.
Proof.
  induction l as [|i l IH]; intros d; simpl.
  - rewrite app_nil_r. repeat split.
  - destruct (IH (camera_buf_queue d i)) as (A & B & C & D & E & F).
    simpl in *. rewrite A, B, C, D, E, F, <- app_assoc. repeat split.
Qed.

(** STREAMON on an idle queue with buffers, in closed form. *)
Lemma streamon_spec d :
  streaming d = false -> num_buffers d <> 0%nat ->
  let d1 := fold_left camera_buf_queue (owned d) d in
  vb2_streamon d =
  (0, set_streaming true
        (set_stats (mk_stats 0 0 (bytes_received (stats d)) (errors (stats d)))
           (set_state CAMERA_STATE_STREAMING d1))).
Proof.
  intros Hst Hn d1. unfold vb2_streamon. rewrite Hst.
  apply Nat.eqb_neq in Hn. rewrite Hn.
  destruct (buf_queue_fold_spec (owned d) d) as (_ & _ & C & _).
  unfold camera_start_streaming, camera_init_streaming. simpl. subst d1. rewrite C. reflexivity.
Qed.

(** X12 *)
(** STREAMON on an idle queue with buffers always succeeds
    ([camera_init_streaming] cannot fail): every queued buffer is handed
    to [camera_buf_queue] in queue order, nothing is completed, the device
    becomes [CAMERA_STATE_STREAMING], and the frame counters restart from 0
    while the byte and error counters are kept. *)
Theorem streamon_hands_queued_buffers (d : camera_device)
  (Hst : streaming d = false) (Hn : num_buffers d <> 0%nat) :
  let '(ret, d') := vb2_streamon d in
  ret = 0 /\ streaming d' = true /\ state d' = CAMERA_STATE_STREAMING /\
  buf_list d' = buf_list d ++ owned d /\ completed d' = completed d /\
  owned d' = owned d /\ num_buffers d' = num_buffers d /\
  frames_received (stats d') = 0%nat /\ frames_dropped (stats d') = 0%nat /\
  bytes_received (stats d') = bytes_received (stats d) /\ errors (stats d') = errors (stats d).
Proof.
  rewrite (streamon_spec d Hst Hn).
  destruct (buf_queue_fold_spec (owned d) d) as (A & B & _ & D & E & _).
  simpl. rewrite A, B, D, E. repeat split.
Qed.

Definition idle_queued : camera_device :=
  run camera_probe_state [Op_s_fmt yuyv_640; Op_reqbufs 4; Op_qbuf 2; Op_qbuf 0].

Lemma streamon_hands_queued_buffers_witness :
  let '(ret, d') := vb2_streamon idle_queued in
  ret = 0 /\ streaming d' = true /\ state d' = CAMERA_STATE_STREAMING /\
  buf_list d' = buf_list idle_queued ++ owned idle_queued /\ completed d' = completed idle_queued /\
  owned d' = owned idle_queued /\ num_buffers d' = num_buffers idle_queued /\
  frames_received (stats d') = 0%nat /\ frames_dropped (stats d') = 0%nat /\
  bytes_received (stats d') = bytes_received (stats idle_queued) /\
  errors (stats d') = errors (stats idle_queued).
Proof.
  apply streamon_hands_queued_buffers.
  - vm_compute. reflexivity.
  - vm_compute. discriminate.
Defined.

Lemma streamoff_streaming_spec d : streaming d = true ->
  let d' := snd (vb2_streamoff d) in
  completed d' = completed d ++ map (fun i => (i, VB2_BUF_STATE_ERROR)) (buf_list d) /\
  state d' = CAMERA_STATE_CONNECTED /\ buf_list d' = [] /\ owned d' = [] /\
  streaming d' = false /\ num_buffers d' = num_buffers d.
Proof.
  intros H d'. subst d'. unfold vb2_streamoff. rewrite H. cbn [snd].
  unfold camera_stop_streaming, camera_return_all_buffers, camera_stop_usb_streaming.
  destruct (return_list_spec VB2_BUF_STATE_ERROR (buf_list d) d) as (RA & RB & _).
  pose proof (return_list_ctl VB2_BUF_STATE_ERROR (buf_list d) d) as Hc.
  unfold ctl in Hc. injection Hc as _ _ Hnb _.
  cbn [completed state buf_list owned streaming num_buffers
       set_done_list set_owned set_streaming set_state].
  rewrite RA, RB, Hnb. repeat split. destruct (buf_list d); reflexivity.
Qed.

(** X13 *)
(** STREAMON followed at once by STREAMOFF gives every buffer handed to
    the driver back with [VB2_BUF_STATE_ERROR], in the order it was handed
    over, each once; the device is [CAMERA_STATE_CONNECTED] again with an
    empty driver list, nothing queued and its buffers still allocated. *)
Theorem streamon_streamoff_returns_all (d : camera_device)
  (Hst : streaming d = false) (Hn : num_buffers d <> 0%nat) :
  let d' := snd (vb2_streamoff (snd (vb2_streamon d))) in
  completed d' = completed d ++ map (fun i => (i, VB2_BUF_STATE_ERROR)) (buf_list d ++ owned d) /\
  state d' = CAMERA_STATE_CONNECTED /\ buf_list d' = [] /\ owned d' = [] /\
  streaming d' = false /\ num_buffers d' = num_buffers d.
Proof.
  intros d'. subst d'. rewrite (streamon_spec d Hst Hn). cbn [snd].
  destruct (buf_queue_fold_spec (owned d) d) as (A & B & _ & _ & E & _).
  destruct (streamoff_streaming_spec
    (set_streaming true (set_stats (mk_stats 0 0 (bytes_received (stats d)) (errors (stats d)))
       (set_state CAMERA_STATE_STREAMING (fold_left camera_buf_queue (owned d) d))))
    eq_refl) as (SA & SB & SC & SD & SE & SF).
  rewrite SA, SB, SC, SD, SE, SF.
  cbn [completed buf_list num_buffers set_streaming set_stats set_state].
  rewrite A, B, E. repeat split.
Qed.

Lemma streamon_streamoff_returns_all_witness :
  let d' := snd (vb2_streamoff (snd (vb2_streamon idle_queued))) in
  completed d' = completed idle_queued ++
    map (fun i => (i, VB2_BUF_STATE_ERROR)) (buf_list idle_queued ++ owned idle_queued) /\
  state d' = CAMERA_STATE_CONNECTED /\ buf_list d' = [] /\ owned d' = [] /\
  streaming d' = false /\ num_buffers d' = num_buffers idle_queued.
Proof.
  apply streamon_streamoff_returns_all.
  - vm_compute. reflexivity.
  - vm_compute. discriminate.
Defined.

(** X14 *)
(** STREAMOFF and release are idempotent: a second call returns 0 and
    changes nothing, completing no buffer twice. *)
Theorem streamoff_idempotent (d : camera_device) :
  vb2_streamoff (snd (vb2_streamoff d)) = vb2_streamoff d /\
  vb2_release (vb2_release d) = vb2_release d.
Proof.
  unfold vb2_release, vb2_streamoff.
  destruct (streaming d); split; reflexivity.
Qed.

(** ** Probe and disconnect *)

Ltac probe_cases env :=
  destruct env as [k r1 r2 a r3];
  unfold camera_probe, camera_create_video_device, camera_init_vb2_queue; cbn -[Z.eqb];
  destruct k, a; cbn -[Z.eqb];
  destruct (r1 =? 0) eqn:E1; destruct (r2 =? 0) eqn:E2; destruct (r3 =? 0) eqn:E3;
  cbn -[Z.eqb]; rewrite ?E1, ?E2, ?E3; cbn -[Z.eqb]; rewrite ?Z.eqb_eq, ?Z.eqb_neq in *.

(** X15 *)
(** [camera_probe] succeeds exactly when every kernel call it makes
    succeeds, and then leaves the freshly probed device with its video
    device set as interface data; on any failure it returns a non-zero
    error, leaves no interface data, and has released everything it
    acquired (device memory, V4L2 registration, video device). *)
Theorem probe_error_unwinds (env : probe_env) :
  let '(ret, evs, data) := camera_probe env in
  (ret = 0 <-> kzalloc_ok env = true /\ v4l2_device_register_ret env = 0 /\
               vb2_queue_init_ret env = 0 /\ video_device_alloc_ok env = true /\
               video_register_device_ret env = 0) /\
  (ret <> 0 -> data = None /\ resources_balanced evs = true) /\
  (ret = 0 -> data = Some (camera_probe_state, true)).
Proof.
  probe_cases env; unfold ENOMEM;
    repeat split; intros; try reflexivity; try discriminate; try lia;
    repeat match goal with H : _ /\ _ |- _ => destruct H end; try discriminate; try lia.
Qed.

(** X16 *)
(** Whatever the outcome of [camera_probe], a later [camera_disconnect] of
    what it left behind balances every acquisition: after a failed probe
    there is no interface data and disconnect does nothing; after a
    successful one it unregisters the video and V4L2 devices, clears the
    interface data and frees the device. *)
Theorem probe_disconnect_balanced (env : probe_env) :
  let '(ret, evs, data) := camera_probe env in
  resources_balanced (evs ++ camera_disconnect data) = true /\
  (data = None -> camera_disconnect data = []).
Proof.
  probe_cases env; split; intros; try reflexivity; discriminate.
Qed.
